(** * Reward, streak and task-workflow logic of the taskback backend

    Shallow embedding of the Mongoose models [User] (unnamed part_002),
    [Task] (models/Task.js, end-of-day comparison, flat reward), the second
    Task model variant (unnamed part_001, raw due-date comparison, reward
    tiered by priority) and of the task routes (unnamed part_003) that
    drive them.

    Conventions of the embedding:
    - a JS [Date] is its time value, milliseconds since the epoch, as [Z];
      the host's local time is UTC shifted by a fixed offset [off] (ms);
    - every [new Date()] taken during one request reads the same instant
      [now];
    - a persisted collection keyed by ObjectId is a [gmap Z _];
    - [save] of a document replaces the stored document with its id;
      storage failures are not modelled;
    - a template-literal description is a constructor carrying the values
      it interpolates. *)

From stdpp Require Import base gmap strings list sorting.
From Stdlib Require Import ZArith Lia.

Open Scope Z_scope.

(** ** Dates *)
Module Time.

Definition DAY_MS : Z := 1000 * 60 * 60 * 24.

(** [const d = new Date(x); d.setHours(23, 59, 59, 999)]: the last
    millisecond of the local calendar day of [x]. *)
Definition setEndOfDay (off x : Z) : Z :=
  let local := x + off in
  local - local mod DAY_MS + (((23 * 60 + 59) * 60 + 59) * 1000 + 999) - off.

(** [Math.floor((a - b) / (1000 * 60 * 60 * 24))] (for differences below
    2^53 ms the float quotient floors like the integer one). *)
Definition daysBetween (a b : Z) : Z := (a - b) / DAY_MS.

End Time.

(** ** The User model (unnamed part_002) *)
Module User.

Inductive userRole := Admin | Designer | ProjectManager | SalesRepresentative | Employee.

Inductive reward_type := RPoints | RGift.

(** The [reason] strings passed to [addRewardPoints]. *)
Inductive reward_reason :=
| OnTimeTaskCompletion (title : string)  (* `On-time task completion: ${title}` *)
| TaskCompletionReward (title : string)  (* `Task completion reward: ${title}` *)
| StreakReward (streak : Z).             (* `Streak reward for ${n} consecutive tasks` *)

Record reward := mkReward {
  r_type : reward_type;
  r_value : Z;
  r_description : reward_reason;
  r_date : Z
}.

Record user := mkUser {
  role : userRole;
  rewardPoints : Z;
  currentStreak : Z;
  lastTaskCompletion : option Z;
  rewards : list reward
}.

(** Schema defaults of a newly created user. *)
Definition newUser (r : userRole) : user := mkUser r 0 0 None [].

(** [userSchema.methods.addRewardPoints(points, reason)] *)
Definition addRewardPoints (now points : Z) (reason : reward_reason) (u : user) : user :=
  mkUser (role u) (rewardPoints u + points) (currentStreak u) (lastTaskCompletion u)
         (rewards u ++ [mkReward RPoints points reason now]).

(** The streak block of [updateStreak]: the value of [this.currentStreak]
    after the [if (!lastCompletion) ... else ...] statement. *)
Definition streakAfter (now : Z) (u : user) : Z :=
  match lastTaskCompletion u with
  | None => 1
  | Some lastCompletion =>
      let daysDiff := Time.daysBetween now lastCompletion in
      if daysDiff =? 1 then currentStreak u + 1
      else if daysDiff >? 1 then 1
      else currentStreak u
  end.

(** [userSchema.methods.updateStreak(taskCompletionDate)]; [now] is the
    method's own [new Date()]. *)
Definition updateStreak (now taskCompletionDate : Z) (u : user) : user :=
  let s := streakAfter now u in
  let u1 := mkUser (role u) (rewardPoints u) s (Some taskCompletionDate) (rewards u) in
  if Z.rem s 10 =? 0
  then addRewardPoints now (s * 100) (StreakReward s) u1
  else u1.

(** Sum of the values of the ["points"] entries of a reward log. *)
Fixpoint sumPoints (l : list reward) : Z :=
  match l with
  | [] => 0
  | r :: l' => match r_type r with RPoints => r_value r | RGift => 0 end + sumPoints l'
  end.

End User.

(** The users collection, keyed by ObjectId. *)
Abbreviation users := (gmap Z User.user).

(** ** The Task document *)
Module Task.

Inductive taskStatus := Pending | InProgress | Completed | Overdue.

Inductive taskPriority := Low | Medium | High | Urgent.

Inductive ext_status := ExtPending | ExtApproved | ExtRejected.

Record extRequest := mkExt {
  requested : bool;
  ext_status_ : ext_status;
  requestedBy : option Z;
  requestedAt : option Z;
  newDueDate : option Z;
  approvedBy : option Z;
  approvedAt : option Z
}.

Record comment := mkComment { text : string; postedBy : Z; c_createdAt : Z }.

Record task := mkTask {
  task_id : Z;
  title : string;
  assignedTo : Z;
  createdBy : Z;
  status : taskStatus;
  priority : taskPriority;
  dueDate : Z;
  completionDate : option Z;
  isCompletedOnTime : bool;
  rewardPoints : Z;
  extensionRequest : extRequest;
  comments : list comment
}.

Definition set_status (s : taskStatus) (t : task) : task :=
  mkTask (task_id t) (title t) (assignedTo t) (createdBy t) s (priority t) (dueDate t)
         (completionDate t) (isCompletedOnTime t) (rewardPoints t) (extensionRequest t) (comments t).

Definition set_completionDate (d : option Z) (t : task) : task :=
  mkTask (task_id t) (title t) (assignedTo t) (createdBy t) (status t) (priority t) (dueDate t)
         d (isCompletedOnTime t) (rewardPoints t) (extensionRequest t) (comments t).

Definition set_isCompletedOnTime (b : bool) (t : task) : task :=
  mkTask (task_id t) (title t) (assignedTo t) (createdBy t) (status t) (priority t) (dueDate t)
         (completionDate t) b (rewardPoints t) (extensionRequest t) (comments t).

Definition set_rewardPoints (p : Z) (t : task) : task :=
  mkTask (task_id t) (title t) (assignedTo t) (createdBy t) (status t) (priority t) (dueDate t)
         (completionDate t) (isCompletedOnTime t) p (extensionRequest t) (comments t).

Definition set_dueDate (d : Z) (t : task) : task :=
  mkTask (task_id t) (title t) (assignedTo t) (createdBy t) (status t) (priority t) d
         (completionDate t) (isCompletedOnTime t) (rewardPoints t) (extensionRequest t) (comments t).

Definition set_extensionRequest (e : extRequest) (t : task) : task :=
  mkTask (task_id t) (title t) (assignedTo t) (createdBy t) (status t) (priority t) (dueDate t)
         (completionDate t) (isCompletedOnTime t) (rewardPoints t) e (comments t).

Definition set_comments (c : list comment) (t : task) : task :=
  mkTask (task_id t) (title t) (assignedTo t) (createdBy t) (status t) (priority t) (dueDate t)
         (completionDate t) (isCompletedOnTime t) (rewardPoints t) (extensionRequest t) c.

Definition noExtension : extRequest :=
  mkExt false ExtPending None None None None None.

End Task.

(** ** [taskSchema.methods.completeTask] of models/Task.js *)
Module TaskModel.
Import Task.

Definition completeTask (off now : Z) (t0 : task) (db : users) : task * users :=
  let t1 := set_completionDate (Some now) (set_status Completed t0) in
  let due := Time.setEndOfDay off (dueDate t1) in
  let onTime := now <=? due in
  let t2 := set_isCompletedOnTime onTime t1 in
  let t3 := if onTime then set_rewardPoints 50 t2 else set_rewardPoints 0 t2 in
  (* await this.save(); const user = await User.findById(this.assignedTo) *)
  match db !! assignedTo t3 with
  | Some u =>
      if isCompletedOnTime t3 then
        let u1 := User.updateStreak now now u in
        let u2 := User.addRewardPoints now (rewardPoints t3)
                    (User.OnTimeTaskCompletion (title t3)) u1 in
        (t3, <[assignedTo t3 := u2]> db)
      else (t3, db)
  | None => (t3, db)  (* console.error: user not found *)
  end.

End TaskModel.

(** ** [taskSchema.methods.completeTask] of the tiered variant (unnamed part_001) *)
Module TaskModelTiered.
Import Task.

(** The [switch (this.priority)]. *)
Definition priorityBonus (p : taskPriority) : Z :=
  match p with
  | Urgent => 50
  | High => 30
  | Medium => 20
  | Low => 10
  end.

Definition completeTask (now : Z) (t0 : task) (db : users) : task * users :=
  let t1 := set_completionDate (Some now) (set_status Completed t0) in
  let onTime := now <=? dueDate t1 in
  let t2 := set_isCompletedOnTime onTime t1 in
  let t3 := if onTime then set_rewardPoints (50 + priorityBonus (priority t2)) t2 else t2 in
  match db !! assignedTo t3 with
  | Some u =>
      if isCompletedOnTime t3 then
        let u1 := User.updateStreak now now u in
        let u2 := User.addRewardPoints now (rewardPoints t3)
                    (User.TaskCompletionReward (title t3)) u1 in
        (t3, <[assignedTo t3 := u2]> db)
      else (t3, db)
  | None => (t3, db)
  end.

End TaskModelTiered.

(** ** Task routes (unnamed part_003)

    Each route is the handler body, run after the [auth] (and, where the
    route has it, [isAdmin]) middleware; the document [Task.findById]
    returned is passed in as [found], the users collection as [db]. *)
Module TaskRoutes.
Import Task.

Inductive response (A : Type) := Ok (a : A) | Err (code : Z).
Arguments Ok {A} a.
Arguments Err {A} code.

(** [req.user] *)
Record reqUser := mkReqUser { req_id : Z; req_role : User.userRole }.

Definition isAdminRole (r : User.userRole) : bool :=
  match r with User.Admin => true | _ => false end.

(** [validStatuses.includes(status)] *)
Definition parseStatus (s : string) : option taskStatus :=
  if String.eqb s "pending" then Some Pending
  else if String.eqb s "in_progress" then Some InProgress
  else if String.eqb s "completed" then Some Completed
  else if String.eqb s "overdue" then Some Overdue
  else None.

Record rewardInfo := mkRewardInfo {
  pointsEarned : Z;
  totalPoints : Z;
  info_currentStreak : Z;
  info_isCompletedOnTime : bool
}.

(** [router.patch('/:id/status')] *)
Definition patchStatus (off now : Z) (req : reqUser) (body_status : option string)
    (found : option task) (db : users) : response (task * users * option rewardInfo) :=
  match body_status with
  | None | Some EmptyString => Err 400                          (* Status is required *)
  | Some s =>
    match parseStatus s with
    | None => Err 400                                  (* Invalid status value *)
    | Some st =>
      match found with
      | None => Err 404
      | Some t =>
        let isAssigned := assignedTo t =? req_id req in
        let isAdmin := isAdminRole (req_role req) in
        if negb isAssigned && negb isAdmin then Err 403 else
        let t1 := set_status st t in
        match st with
        | Completed =>
            let '(completedTask, db') := TaskModel.completeTask off now t1 db in
            let info :=
              match db' !! assignedTo t1 with
              | Some u => Some (mkRewardInfo (rewardPoints completedTask) (User.rewardPoints u)
                                  (User.currentStreak u) (isCompletedOnTime completedTask))
              | None => None
              end in
            Ok (completedTask, db', info)
        | _ => Ok (t1, db, None)                        (* await task.save() *)
        end
      end
    end
  end.

(** [router.patch('/:id/extension-request')] (after [auth, isAdmin]);
    [body_newDueDate] is the body's date, already a valid date. *)
Definition patchExtensionRequest (now : Z) (req : reqUser) (body_status : option string)
    (body_newDueDate : option Z) (found : option task) : response task :=
  match found with
  | None => Err 404
  | Some t =>
    let e := extensionRequest t in
    if negb (requested e) then Err 400 else
    match body_status with
    | None => Err 400
    | Some s =>
      if String.eqb s "approved" then
        match body_newDueDate with
        | None => Err 400
        | Some proposedDate =>
          if proposedDate <=? dueDate t then Err 400 else
          Ok (set_extensionRequest
                (mkExt (requested e) ExtApproved (requestedBy e) (requestedAt e)
                       (Some proposedDate) (Some (req_id req)) (Some now))
                (set_dueDate proposedDate t))
        end
      else if String.eqb s "rejected" then
        Ok (set_extensionRequest
              (mkExt (requested e) ExtRejected (requestedBy e) (requestedAt e)
                     (newDueDate e) (Some (req_id req)) (Some now)) t)
      else Err 400
    end
  end.

Inductive notificationType := NComment | NExtensionRequest | NExtensionResponse.

Record notification := mkNotification {
  recipient : Z;
  n_task : Z;
  n_type : notificationType;
  actor : Z
}.

(** [User.find({ role: 'admin' })], as ids. *)
Definition adminIds (db : users) : list Z :=
  map fst (List.filter (fun kv => isAdminRole (User.role kv.2)) (map_to_list db)).

(** The notifications [router.post('/:id/comments')] creates. *)
Definition commentNotifications (me : Z) (t : task) (admins : list Z) : list notification :=
  (if negb (createdBy t =? me)
   then [mkNotification (createdBy t) (task_id t) NComment me] else []) ++
  (if negb (assignedTo t =? me)
   then [mkNotification (assignedTo t) (task_id t) NComment me] else []) ++
  flat_map (fun admin =>
              if negb (admin =? me) && negb (admin =? createdBy t) && negb (admin =? assignedTo t)
              then [mkNotification admin (task_id t) NComment me] else [])
           admins.

(** [router.post('/:id/comments')] *)
Definition postComment (now : Z) (req : reqUser) (body_text : string)
    (found : option task) (db : users) : response (task * list notification) :=
  match found with
  | None => Err 404
  | Some t =>
    let t1 := set_comments (comments t ++ [mkComment body_text (req_id req) now]) t in
    Ok (t1, commentNotifications (req_id req) t1 (adminIds db))
  end.

End TaskRoutes.

(** ** Reachable user collections

    The users collection as the code can leave it: users are created with
    the schema defaults, and the only writes to [rewardPoints],
    [currentStreak], [lastTaskCompletion] and [rewards] are those of the two
    [completeTask] variants (directly or through the status route). *)
Inductive reachable : users -> Prop :=
| reachable_empty : reachable ∅
| reachable_register (db : users) (id : Z) (r : User.userRole) :
    reachable db -> db !! id = None -> reachable (<[id := User.newUser r]> db)
| reachable_complete (db : users) (off now : Z) (t : Task.task) :
    reachable db -> reachable (snd (TaskModel.completeTask off now t db))
| reachable_complete_tiered (db : users) (now : Z) (t : Task.task) :
    reachable db -> reachable (snd (TaskModelTiered.completeTask now t db)).

(** The invariant of a stored user: [rewardPoints] is the sum of the
    ["points"] entries of its log, and the streak is non-negative. *)
Definition userOk (u : User.user) : Prop :=
  User.rewardPoints u = User.sumPoints (User.rewards u) /\ 0 <= User.currentStreak u.

(** The writes of a completion to the users collection: none, or the
    assignee written back after [updateStreak] and one [addRewardPoints]
    of a non-negative amount. *)
Definition awards (now : Z) (db db' : users) : Prop :=
  db' = db \/
  exists a u p r, db !! a = Some u /\ 0 <= p /\
    db' = <[a := User.addRewardPoints now p r (User.updateStreak now now u)]> db.

(** ** Further code of the models and the task routes *)

(** [userSchema.pre('save')] of unnamed part_002 on the password field:
    [bcryptHash] stands for [bcrypt.hash(password, await bcrypt.genSalt(10))]
    with its fresh salt. String lengths count bytes (= UTF-16 units for
    ASCII passwords). *)
Definition preSavePassword (bcryptHash : string -> string) (isModified : bool)
    (password : string) : string :=
  if negb isModified then password
  else if (String.length password <? 30)%nat then bcryptHash password
  else password.

(** [userSchema.methods.getDashboardRoute] *)
Definition getDashboardRoute (r : User.userRole) : string :=
  match r with
  | User.Admin => "/admin/dashboard"
  | User.Designer => "/design/dashboard"
  | User.ProjectManager => "/projects/dashboard"
  | User.SalesRepresentative => "/sales/dashboard"
  | _ => "/tasks"
  end.


(** Shape of a stored user: every log entry is a positive ["points"]
    entry, and either the user never completed a task on time (streak 0,
    empty log) or has a last completion and a streak of at least 1. *)
Definition userShape (u : User.user) : Prop :=
  Forall (fun r => User.r_type r = User.RPoints /\ 0 < User.r_value r) (User.rewards u) /\
  ((User.lastTaskCompletion u = None /\ User.currentStreak u = 0 /\ User.rewards u = []) \/
   (User.lastTaskCompletion u <> None /\ 1 <= User.currentStreak u)).

Module MoreRoutes.
Import Task TaskRoutes.

(** [router.post('/:id/extension-request')]: the handler and the
    notification it creates for the task creator. The stored [reason]
    text is not part of [extRequest]; [body_newDueDate] is the body's
    date, already a valid date. *)
Definition postExtensionRequest (now : Z) (req : reqUser) (body_reason : option string)
    (body_newDueDate : option Z) (found : option task) : response (task * notification) :=
  match found with
  | None => Err 404
  | Some t =>
    if negb (assignedTo t =? req_id req) then Err 403 else
    match body_reason, body_newDueDate with
    | Some reason, Some proposedDate =>
        if String.eqb reason EmptyString then Err 400
        else if proposedDate <=? dueDate t then Err 400
        else
          let t1 := set_extensionRequest
                      (mkExt true ExtPending (Some (req_id req)) (Some now)
                             (Some proposedDate) None None) t in
          Ok (t1, mkNotification (createdBy t) (task_id t) NExtensionRequest (req_id req))
    | _, _ => Err 400
    end
  end.

(** Sort key of [.sort({ rewardPoints: -1 })]. *)
Definition byPointsDesc (a b : Z * User.user) : Prop :=
  User.rewardPoints b.2 <= User.rewardPoints a.2.

#[global] Instance byPointsDesc_dec : RelDecision byPointsDesc.
Proof. intros a b. unfold byPointsDesc. apply _. Defined.

(** [router.get('/rewards/leaderboard')]: non-admin users, by
    [rewardPoints] descending, at most 10 (ties in the order of a stable
    sort of the collection; the database leaves their order open). *)
Definition leaderboard (db : users) : list (Z * User.user) :=
  take 10 (merge_sort byPointsDesc
             (List.filter (fun kv => negb (isAdminRole (User.role kv.2))) (map_to_list db))).



(** The users [User.find({ role: { $ne: 'admin' } })] returns. *)
Definition candidates (db : users) : list (Z * User.user) :=
  List.filter (fun kv => negb (isAdminRole (User.role kv.2))) (map_to_list db).

(** The admin part of [commentNotifications]: the [adminUsers.forEach] loop. *)
Definition adminPart (me : Z) (t : task) (admins : list Z) : list notification :=
  flat_map (fun admin =>
              if negb (admin =? me) && negb (admin =? createdBy t) && negb (admin =? assignedTo t)
              then [mkNotification admin (task_id t) NComment me] else [])
           admins.

(** How many of the notifications [ns] go to user [r]. *)
Definition countFor (r : Z) (ns : list notification) : nat :=
  length (List.filter (fun n => recipient n =? r) ns).

(** [router.get('/:id/extension-request')] *)
Definition getExtensionRequest (req : reqUser) (found : option task) : response extRequest :=
  match found with
  | None => Err 404
  | Some t =>
    if negb (assignedTo t =? req_id req) && negb (createdBy t =? req_id req)
       && negb (isAdminRole (req_role req))
    then Err 403
    else Ok (extensionRequest t)
  end.

End MoreRoutes.

(** * Properties *)

(** ** Date arithmetic *)
Section Dates.

Lemma setEndOfDay_ge (off x : Z) : x <= Time.setEndOfDay off x.
Proof.
  unfold Time.setEndOfDay, Time.DAY_MS.
  pose proof (Z.mod_pos_bound (x + off) (1000 * 60 * 60 * 24)). lia.
Qed.

End Dates.

(** ** The User model *)
Module UserFacts.
Import User.

Lemma sumPoints_app (l1 l2 : list reward) :
  sumPoints (l1 ++ l2) = sumPoints l1 + sumPoints l2.
Proof. induction l1 as [|r l1 IH]; simpl; [reflexivity | rewrite IH; lia]. Qed.

Lemma addRewardPoints_sum (now p : Z) (r : reward_reason) (u : user) :
  rewardPoints u = sumPoints (rewards u) ->
  rewardPoints (addRewardPoints now p r u) = sumPoints (rewards (addRewardPoints now p r u)).
Proof. intros H. simpl. rewrite sumPoints_app, H. simpl. lia. Qed.

Lemma streakAfter_nonneg (now : Z) (u : user) :
  0 <= currentStreak u -> 0 <= streakAfter now u.
Proof.
  intros H. unfold streakAfter.
  destruct (lastTaskCompletion u); [|lia].
  destruct (_ =? 1); [lia|]. destruct (_ >? 1); lia.
Qed.

Lemma updateStreak_shape (now tcd : Z) (u : user) :
  let s := streakAfter now u in
  let bonus := Z.rem s 10 =? 0 in
  rewards (updateStreak now tcd u) =
    rewards u ++ (if bonus then [mkReward RPoints (s * 100) (StreakReward s) now] else []) /\
  rewardPoints (updateStreak now tcd u) =
    rewardPoints u + (if bonus then s * 100 else 0) /\
  currentStreak (updateStreak now tcd u) = s /\
  lastTaskCompletion (updateStreak now tcd u) = Some tcd.
Proof.
  simpl. unfold updateStreak.
  destruct (Z.rem (streakAfter now u) 10 =? 0); simpl;
    rewrite ?app_nil_r; repeat split; lia.
Qed.

Lemma updateStreak_sum (now tcd : Z) (u : user) :
  rewardPoints u = sumPoints (rewards u) ->
  rewardPoints (updateStreak now tcd u) = sumPoints (rewards (updateStreak now tcd u)).
Proof.
  intros H. destruct (updateStreak_shape now tcd u) as (Hr & Hp & _).
  rewrite Hr, Hp, sumPoints_app, H.
  destruct (Z.rem _ 10 =? 0); simpl; lia.
Qed.

Lemma updateStreak_ok (now tcd : Z) (u : user) : userOk u -> userOk (updateStreak now tcd u).
Proof.
  intros [H1 H2]. split; [now apply updateStreak_sum|].
  destruct (updateStreak_shape now tcd u) as (_ & _ & Hs & _).
  rewrite Hs. now apply streakAfter_nonneg.
Qed.

Lemma updateStreak_mono (now tcd : Z) (u : user) :
  0 <= currentStreak u -> rewardPoints u <= rewardPoints (updateStreak now tcd u).
Proof.
  intros H. destruct (updateStreak_shape now tcd u) as (_ & Hp & _).
  pose proof (streakAfter_nonneg now u H).
  rewrite Hp. destruct (Z.rem _ 10 =? 0); lia.
Qed.

Lemma addRewardPoints_ok (now p : Z) (r : reward_reason) (u : user) :
  userOk u -> userOk (addRewardPoints now p r u).
Proof. intros [H1 H2]. split; [now apply addRewardPoints_sum | exact H2]. Qed.

End UserFacts.

(** ** C1: the streak bonus of [updateStreak] *)

(** C1 (amended). [updateStreak] appends a streak bonus entry of
    [currentStreak * 100] points, and adds those points to [rewardPoints],
    exactly when the updated streak [s] satisfies [s % 10 === 0]; the test
    is on the value of the streak after the update, whether or not the
    update changed it. *)
Theorem updateStreak_bonus_iff (now tcd : Z) (u : User.user) :
  let s := User.streakAfter now u in
  let u' := User.updateStreak now tcd u in
  User.currentStreak u' = s /\
  exists bonus,
    User.rewards u' = User.rewards u ++ bonus /\
    User.rewardPoints u' = User.rewardPoints u + User.sumPoints bonus /\
    ((Z.rem s 10 = 0 /\ bonus = [User.mkReward User.RPoints (s * 100) (User.StreakReward s) now])
     \/ (Z.rem s 10 <> 0 /\ bonus = [])).
Proof.
  intros s u'.
  destruct (UserFacts.updateStreak_shape now tcd u) as (Hr & Hp & Hs & _).
  fold s in Hr, Hp, Hs. fold u' in Hr, Hp, Hs.
  split; [exact Hs|].
  destruct (Z.eqb_spec (Z.rem s 10) 0) as [E|E].
  - eexists. split; [exact Hr|]. split; [rewrite Hp; simpl; lia|]. left. auto.
  - eexists. split; [exact Hr|]. split; [rewrite Hp; simpl; lia|]. right. auto.
Qed.

(** C1 (counterexample). A user at streak 9 who completes on the next day
    reaches 10 and gets the 1000-point bonus; a second completion one hour
    later leaves the streak at 10 and gets the bonus a second time. *)
Lemma updateStreak_same_day_repeat_bonus :
  let day9 := 1704844800000 in            (* 2024-01-10T00:00:00Z *)
  let t1 := day9 + Time.DAY_MS + 3600000 in (* 2024-01-11T01:00:00Z *)
  let t2 := t1 + 3600000 in                 (* 2024-01-11T02:00:00Z *)
  let u9 := User.mkUser User.Employee 0 9 (Some day9) [] in
  let u10 := User.updateStreak t1 t1 u9 in
  let u10' := User.updateStreak t2 t2 u10 in
  User.currentStreak u10 = 10 /\
  User.currentStreak u10' = User.currentStreak u10 /\
  User.rewards u10' =
    [User.mkReward User.RPoints 1000 (User.StreakReward 10) t1;
     User.mkReward User.RPoints 1000 (User.StreakReward 10) t2].
Proof. vm_compute. repeat split. Qed.

(** ** C2: the streak update *)

(** C2 (amended). With a previous completion [last], [updateStreak]
    takes [daysDiff = floor((now - last) / 86400000)], the number of
    elapsed 24-hour periods: [daysDiff = 1] increments the streak,
    [daysDiff > 1] resets it to 1, and [daysDiff <= 0] (in particular
    less than 24 hours elapsed) leaves it unchanged; [lastTaskCompletion]
    becomes the completion time in every case. *)
Theorem updateStreak_streak_cases (now tcd last : Z) (u : User.user) :
  User.lastTaskCompletion u = Some last ->
  let daysDiff := (now - last) / (1000 * 60 * 60 * 24) in
  let u' := User.updateStreak now tcd u in
  (daysDiff = 1 -> User.currentStreak u' = User.currentStreak u + 1) /\
  (1 < daysDiff -> User.currentStreak u' = 1) /\
  (daysDiff <= 0 -> User.currentStreak u' = User.currentStreak u) /\
  (0 <= now - last < 1000 * 60 * 60 * 24 -> User.currentStreak u' = User.currentStreak u) /\
  User.lastTaskCompletion u' = Some tcd.
Proof.
  intros Hl daysDiff u'.
  destruct (UserFacts.updateStreak_shape now tcd u) as (_ & _ & Hs & Ht).
  fold u' in Hs, Ht. rewrite Hs.
  unfold User.streakAfter, Time.daysBetween, Time.DAY_MS. rewrite Hl. fold daysDiff.
  repeat split; [intros E | intros E | intros E | intros E | exact Ht].
  - rewrite E. reflexivity.
  - destruct (Z.eqb_spec daysDiff 1); [lia|].
    destruct (Z.gtb_spec daysDiff 1); [reflexivity|lia].
  - destruct (Z.eqb_spec daysDiff 1); [lia|].
    destruct (Z.gtb_spec daysDiff 1); [lia|reflexivity].
  - assert (daysDiff = 0) as ->.
    { unfold daysDiff. apply Z.div_small. lia. }
    reflexivity.
Qed.

Lemma updateStreak_streak_cases_witness :
  User.lastTaskCompletion (User.mkUser User.Employee 0 3 (Some 0) []) = Some 0 /\
  User.currentStreak (User.updateStreak Time.DAY_MS Time.DAY_MS
                        (User.mkUser User.Employee 0 3 (Some 0) [])) = 4.
Proof.
  split; [reflexivity|].
  destruct (updateStreak_streak_cases Time.DAY_MS Time.DAY_MS 0
              (User.mkUser User.Employee 0 3 (Some 0) []) eq_refl) as [H _].
  apply H. reflexivity.
Defined.

(** C2 (counterexample). Completions at 23:00 and at 01:00 the next
    calendar day (UTC) are less than 24 hours apart: the streak is left
    unchanged rather than incremented. *)
Lemma updateStreak_consecutive_days_no_increment :
  let last := 1704927600000 in   (* 2024-01-10T23:00:00Z *)
  let now := 1704934800000 in    (* 2024-01-11T01:00:00Z *)
  let u := User.mkUser User.Employee 0 3 (Some last) [] in
  last / Time.DAY_MS + 1 = now / Time.DAY_MS /\
  User.currentStreak (User.updateStreak now now u) = 3.
Proof. vm_compute. split; reflexivity. Qed.

(** ** [completeTask]: the task side *)
Module CompleteFacts.
Import Task.

Ltac unfold_complete :=
  unfold TaskModel.completeTask, TaskModelTiered.completeTask; simpl.

(** The task document [completeTask] returns does not depend on the
    users collection. *)
Lemma completeTask_fst (off now : Z) (t : task) (db : users) :
  fst (TaskModel.completeTask off now t db) =
    let onTime := now <=? Time.setEndOfDay off (dueDate t) in
    set_rewardPoints (if onTime then 50 else 0)
      (set_isCompletedOnTime onTime
         (set_completionDate (Some now) (set_status Completed t))).
Proof.
  unfold_complete.
  destruct (now <=? _); simpl; destruct (db !! _); reflexivity.
Qed.

Lemma completeTask_tiered_fst (now : Z) (t : task) (db : users) :
  fst (TaskModelTiered.completeTask now t db) =
    let onTime := now <=? dueDate t in
    let t2 := set_isCompletedOnTime onTime
                (set_completionDate (Some now) (set_status Completed t)) in
    if onTime then set_rewardPoints (50 + TaskModelTiered.priorityBonus (priority t)) t2 else t2.
Proof.
  unfold_complete.
  destruct (now <=? _); simpl; destruct (db !! _); reflexivity.
Qed.

(** A late completion leaves the users collection as it is. *)
Lemma completeTask_late_snd (off now : Z) (t : task) (db : users) :
  (now <=? Time.setEndOfDay off (dueDate t)) = false ->
  snd (TaskModel.completeTask off now t db) = db.
Proof.
  intros E. unfold_complete. rewrite E. simpl. destruct (db !! _); reflexivity.
Qed.

Lemma completeTask_tiered_late_snd (now : Z) (t : task) (db : users) :
  (now <=? dueDate t) = false ->
  snd (TaskModelTiered.completeTask now t db) = db.
Proof.
  intros E. unfold_complete. rewrite E. simpl. destruct (db !! _); reflexivity.
Qed.

(** models/Task.js: a completion after the end of the due day is marked
    late, earns 0 points and changes no user. *)
Lemma completeTask_late_frame (off now : Z) (t : task) (db : users) :
  Time.setEndOfDay off (dueDate t) < now ->
  isCompletedOnTime (fst (TaskModel.completeTask off now t db)) = false /\
  rewardPoints (fst (TaskModel.completeTask off now t db)) = 0 /\
  snd (TaskModel.completeTask off now t db) = db.
Proof.
  intros H. assert (E : (now <=? Time.setEndOfDay off (dueDate t)) = false)
    by (apply Z.leb_gt; lia).
  rewrite completeTask_fst, completeTask_late_snd by exact E. simpl. rewrite E. auto.
Qed.


End CompleteFacts.

(** ** C3: on-time completion *)

(** C3 (amended). In models/Task.js a completion at or before the last
    millisecond (23:59:59.999 local time) of the due date's day is on
    time and earns 50 points. The tiered variant (part_001) compares
    against the raw [dueDate] instant: a completion is on time exactly
    when [now <= dueDate], and then earns at least 60 points. *)
Theorem completeTask_on_time_positive (off now : Z) (t : Task.task) (db : users) :
  (now <= Time.setEndOfDay off (Task.dueDate t) ->
     Task.isCompletedOnTime (fst (TaskModel.completeTask off now t db)) = true /\
     Task.rewardPoints (fst (TaskModel.completeTask off now t db)) = 50) /\
  Task.isCompletedOnTime (fst (TaskModelTiered.completeTask now t db)) = (now <=? Task.dueDate t) /\
  (now <= Task.dueDate t ->
     60 <= Task.rewardPoints (fst (TaskModelTiered.completeTask now t db))).
Proof.
  rewrite CompleteFacts.completeTask_fst, CompleteFacts.completeTask_tiered_fst. simpl.
  split; [|split].
  - intros H. apply Z.leb_le in H. rewrite H. simpl. split; reflexivity.
  - destruct (now <=? Task.dueDate t); reflexivity.
  - intros H. apply Z.leb_le in H. rewrite H. simpl.
    destruct (Task.priority t); simpl; lia.
Qed.

Lemma completeTask_on_time_positive_witness :
  let t := Task.mkTask 1 "t" 7 2 Task.InProgress Task.High 1704844800000 None false 0
             Task.noExtension [] in
  1704844800000 - 3600000 <= Time.setEndOfDay 0 (Task.dueDate t) /\
  Task.rewardPoints (fst (TaskModel.completeTask 0 (1704844800000 - 3600000) t ∅)) = 50 /\
  1704844800000 - 3600000 <= Task.dueDate t /\
  60 <= Task.rewardPoints (fst (TaskModelTiered.completeTask (1704844800000 - 3600000) t ∅)).
Proof.
  intros t.
  destruct (completeTask_on_time_positive 0 (1704844800000 - 3600000) t ∅) as (H1 & _ & H3).
  assert (A : 1704844800000 - 3600000 <= Time.setEndOfDay 0 (Task.dueDate t))
    by (vm_compute; discriminate).
  assert (B : 1704844800000 - 3600000 <= Task.dueDate t) by (vm_compute; discriminate).
  split; [exact A|]. split; [exact (proj2 (H1 A))|]. split; [exact B|]. exact (H3 B).
Defined.

(** C3 (counterexample). Task due 2024-01-10 (stored as midnight UTC),
    completed at 22:00 that day: before the end of the due day, yet the
    tiered variant marks it late and leaves its points at 0. *)
Lemma completeTask_tiered_same_day_late :
  let due := 1704844800000 in     (* 2024-01-10T00:00:00Z *)
  let now := 1704924000000 in     (* 2024-01-10T22:00:00Z *)
  let t := Task.mkTask 1 "t" 7 2 Task.InProgress Task.High due None false 0
             Task.noExtension [] in
  (now <=? Time.setEndOfDay 0 due) = true /\
  Task.isCompletedOnTime (fst (TaskModelTiered.completeTask now t ∅)) = false /\
  Task.rewardPoints (fst (TaskModelTiered.completeTask now t ∅)) = 0.
Proof. vm_compute. repeat split. Qed.

(** ** C4: the amount of an on-time reward *)

(** C4. On time, models/Task.js sets the task's points to a flat 50, the
    tiered variant to 50 plus 50 / 30 / 20 / 10 for an urgent / high /
    medium / low task; for a high task: 50 and 80. *)
Theorem completeTask_reward_on_time (off now : Z) (t : Task.task) (db : users) :
  (Task.isCompletedOnTime (fst (TaskModel.completeTask off now t db)) = true ->
     Task.rewardPoints (fst (TaskModel.completeTask off now t db)) = 50) /\
  (Task.isCompletedOnTime (fst (TaskModelTiered.completeTask now t db)) = true ->
     Task.rewardPoints (fst (TaskModelTiered.completeTask now t db)) =
       50 + match Task.priority t with
            | Task.Urgent => 50 | Task.High => 30 | Task.Medium => 20 | Task.Low => 10
            end) /\
  (Task.priority t = Task.High ->
     Task.isCompletedOnTime (fst (TaskModelTiered.completeTask now t db)) = true ->
     Task.rewardPoints (fst (TaskModelTiered.completeTask now t db)) = 80).
Proof.
  rewrite CompleteFacts.completeTask_fst, CompleteFacts.completeTask_tiered_fst. simpl.
  split; [|split].
  - destruct (now <=? _); simpl; [reflexivity | discriminate].
  - destruct (now <=? _); simpl; [|discriminate].
    intros _. destruct (Task.priority t); reflexivity.
  - intros Hp. rewrite Hp.
    destruct (now <=? _); simpl; [reflexivity | discriminate].
Qed.

Lemma completeTask_reward_on_time_witness :
  let t := Task.mkTask 1 "t" 7 2 Task.InProgress Task.High 1704844800000 None false 0
             Task.noExtension [] in
  let now := 1704844800000 - 3600000 in
  Task.priority t = Task.High /\
  Task.isCompletedOnTime (fst (TaskModelTiered.completeTask now t ∅)) = true /\
  Task.rewardPoints (fst (TaskModelTiered.completeTask now t ∅)) = 80 /\
  Task.rewardPoints (fst (TaskModel.completeTask 0 now t ∅)) = 50.
Proof.
  intros t now.
  destruct (completeTask_reward_on_time 0 now t ∅) as (H1 & _ & H3).
  split; [reflexivity|]. split; [reflexivity|].
  split; [apply H3; reflexivity | apply H1; reflexivity].
Defined.

(** ** C5: late completion *)

(** C5 (failing input of the tiered variant). A high-priority task is
    completed on time (80 points) and then completed again two days after
    its due date: the second completion is marked late, but the tiered
    variant never resets [rewardPoints], which stays 80; models/Task.js
    sets it to 0 on the same path ([completeTask_late_frame]). *)
Lemma completeTask_tiered_late_keeps_points :
  let due := 1704844800000 in
  let t0 := Task.mkTask 1 "t" 7 2 Task.InProgress Task.High due None false 0
              Task.noExtension [] in
  let db0 : users := <[7 := User.newUser User.Employee]> ∅ in
  let r1 := TaskModelTiered.completeTask (due - 3600000) t0 db0 in
  let r2 := TaskModelTiered.completeTask (due + 2 * Time.DAY_MS) (fst r1) (snd r1) in
  Task.rewardPoints (fst r1) = 80 /\
  Task.isCompletedOnTime (fst r2) = false /\
  Task.rewardPoints (fst r2) = 80 /\
  snd r2 = snd r1.
Proof. vm_compute. repeat split. Qed.

(** ** C7: completion when the assignee is missing *)




(** ** C6: completing an already completed task *)
Module RouteFacts.
Import Task TaskRoutes.

Lemma completeTask_on_time_snd (off now : Z) (t : task) (db : users) (u : User.user) :
  db !! assignedTo t = Some u ->
  (now <=? Time.setEndOfDay off (dueDate t)) = true ->
  snd (TaskModel.completeTask off now t db) =
    <[assignedTo t := User.addRewardPoints now 50 (User.OnTimeTaskCompletion (title t))
                        (User.updateStreak now now u)]> db.
Proof.
  intros Hu E. unfold TaskModel.completeTask. simpl. rewrite E. simpl. rewrite Hu. reflexivity.
Qed.

Lemma authorized_passes (req : reqUser) (t : task) :
  assignedTo t = req_id req \/ req_role req = User.Admin ->
  negb (assignedTo t =? req_id req) && negb (isAdminRole (req_role req)) = false.
Proof.
  intros [H|H]; [rewrite H, Z.eqb_refl | rewrite H; simpl; apply andb_false_r]; reflexivity.
Qed.

End RouteFacts.

(** C6 (amended). The status route has no guard against re-completion:
    setting ["completed"] on a task that is already completed runs
    [completeTask] again, which recomputes [isCompletedOnTime] and
    [rewardPoints] from the new completion time (50 on time, 0 late).
    When that completion is on time and the assignee exists, the
    assignee is awarded the points again: the streak update runs again
    ([currentStreak] becomes [streakAfter now u], [lastTaskCompletion]
    becomes [now]), [rewardPoints] grows by at least the task's points
    and the reward log by at least one entry. *)
Theorem patchStatus_recompletion_awards_again (off now : Z) (req : TaskRoutes.reqUser)
    (t : Task.task) (db : users) :
  Task.status t = Task.Completed ->
  Task.assignedTo t = TaskRoutes.req_id req \/ TaskRoutes.req_role req = User.Admin ->
  exists t' db' info,
    TaskRoutes.patchStatus off now req (Some "completed") (Some t) db = TaskRoutes.Ok (t', db', info) /\
    Task.status t' = Task.Completed /\ Task.completionDate t' = Some now /\
    Task.isCompletedOnTime t' = (now <=? Time.setEndOfDay off (Task.dueDate t)) /\
    Task.rewardPoints t' = (if now <=? Time.setEndOfDay off (Task.dueDate t) then 50 else 0) /\
    (forall u, db !! Task.assignedTo t = Some u -> 0 <= User.currentStreak u ->
       now <= Time.setEndOfDay off (Task.dueDate t) ->
       exists u', db' !! Task.assignedTo t = Some u' /\
         User.currentStreak u' = User.streakAfter now u /\
         User.lastTaskCompletion u' = Some now /\
         User.rewardPoints u + Task.rewardPoints t' <= User.rewardPoints u' /\
         (length (User.rewards u) < length (User.rewards u'))%nat).
Proof.
  intros _ Hauth.
  unfold TaskRoutes.patchStatus. simpl.
  rewrite (RouteFacts.authorized_passes req t Hauth). simpl.
  set (t1 := Task.set_status Task.Completed t).
  pose proof (CompleteFacts.completeTask_fst off now t1 db) as Hfst.
  destruct (TaskModel.completeTask off now t1 db) as [ct db'] eqn:E. simpl in Hfst.
  do 3 eexists. split; [reflexivity|].
  rewrite Hfst. simpl.
  split; [reflexivity|]. split; [reflexivity|]. split; [reflexivity|].
  split; [destruct (now <=? _); reflexivity|].
  intros u Hu Hs Hon. apply Z.leb_le in Hon. rewrite Hon.
  assert (Hu1 : db !! Task.assignedTo t1 = Some u) by exact Hu.
  assert (Hon1 : (now <=? Time.setEndOfDay off (Task.dueDate t1)) = true) by exact Hon.
  pose proof (RouteFacts.completeTask_on_time_snd off now t1 db u Hu1 Hon1) as Hsnd.
  rewrite E in Hsnd. simpl in Hsnd.
  set (u' := User.addRewardPoints now 50 (User.OnTimeTaskCompletion (Task.title t1))
               (User.updateStreak now now u)) in Hsnd.
  exists u'. split; [rewrite Hsnd; apply lookup_insert_eq|].
  pose proof (UserFacts.updateStreak_mono now now u Hs).
  destruct (UserFacts.updateStreak_shape now now u) as (Hr & _ & Hc & Hl).
  unfold u'. simpl. split; [exact Hc|]. split; [exact Hl|]. split; [lia|].
  rewrite length_app. simpl. rewrite Hr, length_app. lia.
Qed.

Lemma patchStatus_recompletion_awards_again_witness :
  let t := Task.mkTask 1 "t" 7 2 Task.Completed Task.High 1704844800000 None true 50
             Task.noExtension [] in
  let u := User.mkUser User.Employee 50 1 (Some 1704837600000)
             [User.mkReward User.RPoints 50 (User.OnTimeTaskCompletion "t") 1704837600000] in
  let req := TaskRoutes.mkReqUser 7 User.Employee in
  exists t' db' info u',
    TaskRoutes.patchStatus 0 1704840000000 req (Some "completed") (Some t) (<[7 := u]> ∅) =
      TaskRoutes.Ok (t', db', info) /\
    db' !! Task.assignedTo t = Some u' /\
    Task.isCompletedOnTime t' = true /\ Task.rewardPoints t' = 50 /\
    User.lastTaskCompletion u' = Some 1704840000000 /\
    User.rewardPoints u + 50 <= User.rewardPoints u' /\
    (length (User.rewards u) < length (User.rewards u'))%nat.
Proof.
  intros t u req.
  assert (Hon : 1704840000000 <= Time.setEndOfDay 0 (Task.dueDate t)) by (vm_compute; discriminate).
  destruct (patchStatus_recompletion_awards_again 0 1704840000000 req t (<[7 := u]> ∅)
              eq_refl (or_introl eq_refl))
    as (t' & db' & info & Hp & _ & _ & Hot & Hrp & Hu).
  destruct (Hu u eq_refl ltac:(vm_compute; discriminate) Hon) as (u' & Hl & _ & Hlast & Hpts & Hlen).
  apply Z.leb_le in Hon. rewrite Hon in Hot, Hrp.
  exists t', db', info, u'.
  split; [exact Hp|]. split; [exact Hl|]. split; [exact Hot|]. split; [exact Hrp|].
  split; [exact Hlast|]. split; [rewrite Hrp in Hpts; exact Hpts|exact Hlen].
Defined.

(** C6 (counterexample). The assignee completes a task on time through the
    status route, then sets it to completed again a minute later: the
    first call brings them to 50 points, the second to 100, with two
    log entries. *)
Lemma patchStatus_double_completion :
  let due := 1704844800000 in
  let t0 := Task.mkTask 1 "t" 7 2 Task.InProgress Task.High due None false 0
              Task.noExtension [] in
  let db0 : users := <[7 := User.newUser User.Employee]> ∅ in
  let req := TaskRoutes.mkReqUser 7 User.Employee in
  let now := due - 7200000 in
  match TaskRoutes.patchStatus 0 now req (Some "completed") (Some t0) db0 with
  | TaskRoutes.Ok (t1, db1, _) =>
      match TaskRoutes.patchStatus 0 (now + 60000) req (Some "completed") (Some t1) db1 with
      | TaskRoutes.Ok (t2, db2, _) =>
          Task.status t1 = Task.Completed /\
          Task.rewardPoints t2 = Task.rewardPoints t1 /\
          option_map User.rewardPoints (db1 !! 7) = Some 50 /\
          option_map User.rewardPoints (db2 !! 7) = Some 100 /\
          option_map (fun u => length (User.rewards u)) (db2 !! 7) = Some 2%nat
      | TaskRoutes.Err _ => False
      end
  | TaskRoutes.Err _ => False
  end.
Proof. vm_compute. repeat split. Qed.

(** ** C8: [rewardPoints] is the sum of the ["points"] log *)
Module InvariantFacts.
Import Task.

Lemma completeTask_awards (off now : Z) (t : task) (db : users) :
  awards now db (snd (TaskModel.completeTask off now t db)).
Proof.
  unfold awards, TaskModel.completeTask. simpl.
  destruct (now <=? _); simpl; destruct (db !! assignedTo t) as [u|] eqn:Hu; simpl; auto.
  right. exists (assignedTo t), u, 50, (User.OnTimeTaskCompletion (title t)).
  repeat split; auto; lia.
Qed.

Lemma completeTask_tiered_awards (now : Z) (t : task) (db : users) :
  awards now db (snd (TaskModelTiered.completeTask now t db)).
Proof.
  unfold awards, TaskModelTiered.completeTask. simpl.
  destruct (now <=? _); simpl; destruct (db !! assignedTo t) as [u|] eqn:Hu; simpl; auto.
  right. eexists (assignedTo t), u, _, (User.TaskCompletionReward (title t)).
  repeat split; eauto. destruct (priority t); simpl; lia.
Qed.

Lemma awards_ok (now : Z) (db db' : users) :
  awards now db db' ->
  map_Forall (fun _ => userOk) db -> map_Forall (fun _ => userOk) db'.
Proof.
  intros [->|(a & u & p & r & Hu & _ & ->)] Hdb; [exact Hdb|].
  apply map_Forall_insert_2; [|exact Hdb].
  apply UserFacts.addRewardPoints_ok, UserFacts.updateStreak_ok.
  exact (map_Forall_lookup_1 _ _ _ _ Hdb Hu).
Qed.

Lemma awards_mono (now : Z) (db db' : users) (id : Z) (u : User.user) :
  awards now db db' ->
  map_Forall (fun _ => userOk) db -> db !! id = Some u ->
  exists u', db' !! id = Some u' /\ User.rewardPoints u <= User.rewardPoints u'.
Proof.
  intros [->|(a & v & p & r & Hv & Hp & ->)] Hdb Hu; [exists u; split; [exact Hu | lia]|].
  destruct (Z.eq_dec a id) as [<-|Hne].
  - rewrite Hu in Hv. injection Hv as <-.
    eexists. split; [apply lookup_insert_eq|].
    destruct (map_Forall_lookup_1 _ _ _ _ Hdb Hu) as [_ Hs].
    pose proof (UserFacts.updateStreak_mono now now u Hs). simpl. lia.
  - exists u. split; [rewrite lookup_insert_ne by exact Hne; exact Hu | lia].
Qed.

Lemma reachable_ok (db : users) : reachable db -> map_Forall (fun _ => userOk) db.
Proof.
  induction 1 as [| db id r _ IH _ | db off now t _ IH | db now t _ IH].
  - apply map_Forall_empty.
  - apply map_Forall_insert_2; [split; simpl; lia | exact IH].
  - exact (awards_ok _ _ _ (completeTask_awards off now t db) IH).
  - exact (awards_ok _ _ _ (completeTask_tiered_awards now t db) IH).
Qed.

End InvariantFacts.

(** C8. In every reachable users collection each user's [rewardPoints]
    equals the sum of the values of its ["points"] log entries;
    [addRewardPoints] and [updateStreak] preserve that equality, and no
    completion lowers any user's [rewardPoints]. *)
Theorem reachable_rewardPoints_sum (db : users) :
  reachable db ->
  map_Forall (fun _ u => User.rewardPoints u = User.sumPoints (User.rewards u)) db /\
  (forall now p r u, User.rewardPoints u = User.sumPoints (User.rewards u) ->
     User.rewardPoints (User.addRewardPoints now p r u) =
       User.sumPoints (User.rewards (User.addRewardPoints now p r u))) /\
  (forall now tcd u, User.rewardPoints u = User.sumPoints (User.rewards u) ->
     User.rewardPoints (User.updateStreak now tcd u) =
       User.sumPoints (User.rewards (User.updateStreak now tcd u))) /\
  (forall off now t id u, db !! id = Some u ->
     exists u', snd (TaskModel.completeTask off now t db) !! id = Some u' /\
                User.rewardPoints u <= User.rewardPoints u') /\
  (forall now t id u, db !! id = Some u ->
     exists u', snd (TaskModelTiered.completeTask now t db) !! id = Some u' /\
                User.rewardPoints u <= User.rewardPoints u').
Proof.
  intros Hr. pose proof (InvariantFacts.reachable_ok db Hr) as Hok.
  split; [|split; [|split; [|split]]].
  - intros i u Hu. exact (proj1 (map_Forall_lookup_1 _ _ _ _ Hok Hu)).
  - intros now p r u. apply UserFacts.addRewardPoints_sum.
  - intros now tcd u. apply UserFacts.updateStreak_sum.
  - intros off now t id u Hu.
    exact (InvariantFacts.awards_mono _ _ _ id u
             (InvariantFacts.completeTask_awards off now t db) Hok Hu).
  - intros now t id u Hu.
    exact (InvariantFacts.awards_mono _ _ _ id u
             (InvariantFacts.completeTask_tiered_awards now t db) Hok Hu).
Qed.

Lemma reachable_rewardPoints_sum_witness :
  let db : users := <[7 := User.newUser User.Employee]> ∅ in
  let t := Task.mkTask 1 "t" 7 2 Task.InProgress Task.High 1704844800000 None false 0
             Task.noExtension [] in
  let db' := snd (TaskModel.completeTask 0 1704840000000 t db) in
  reachable db' /\
  map_Forall (fun _ u => User.rewardPoints u = User.sumPoints (User.rewards u)) db'.
Proof.
  intros db t db'.
  assert (H : reachable db').
  { apply reachable_complete, reachable_register; [apply reachable_empty | reflexivity]. }
  split; [exact H | exact (proj1 (reachable_rewardPoints_sum db' H))].
Defined.

(** ** C9: resolving an extension request *)

(** C9. On a task with an open extension request, approving with a date
    strictly after the current due date moves [dueDate] to it and marks
    the request approved; approving with a date not after it is refused
    with 400; rejecting keeps [dueDate] and marks the request rejected. *)
Theorem patchExtensionRequest_resolution (now : Z) (req : TaskRoutes.reqUser) (t : Task.task) :
  Task.requested (Task.extensionRequest t) = true ->
  (forall p, Task.dueDate t < p ->
     exists t', TaskRoutes.patchExtensionRequest now req (Some "approved") (Some p) (Some t) =
                  TaskRoutes.Ok t' /\
                Task.dueDate t' = p /\
                Task.ext_status_ (Task.extensionRequest t') = Task.ExtApproved) /\
  (forall p, p <= Task.dueDate t ->
     TaskRoutes.patchExtensionRequest now req (Some "approved") (Some p) (Some t) =
       TaskRoutes.Err 400) /\
  (forall d, exists t', TaskRoutes.patchExtensionRequest now req (Some "rejected") d (Some t) =
                          TaskRoutes.Ok t' /\
                        Task.dueDate t' = Task.dueDate t /\
                        Task.ext_status_ (Task.extensionRequest t') = Task.ExtRejected).
Proof.
  intros Hreq. unfold TaskRoutes.patchExtensionRequest. rewrite Hreq. simpl.
  split; [|split].
  - intros p Hp. destruct (Z.leb_spec p (Task.dueDate t)); [lia|].
    eexists. split; [reflexivity|]. split; reflexivity.
  - intros p Hp. destruct (Z.leb_spec p (Task.dueDate t)); [reflexivity|lia].
  - intros d. eexists. split; [reflexivity|]. split; reflexivity.
Qed.

Lemma patchExtensionRequest_resolution_witness :
  let t := Task.mkTask 1 "t" 7 2 Task.InProgress Task.High 1704844800000 None false 0
             (Task.mkExt true Task.ExtPending (Some 7) (Some 1704800000000)
                (Some 1705017600000) None None) [] in
  let req := TaskRoutes.mkReqUser 3 User.Admin in
  Task.requested (Task.extensionRequest t) = true /\
  exists t', TaskRoutes.patchExtensionRequest 1704810000000 req (Some "approved")
               (Some 1705017600000) (Some t) = TaskRoutes.Ok t' /\
             Task.dueDate t' = 1705017600000 /\
             Task.ext_status_ (Task.extensionRequest t') = Task.ExtApproved.
Proof.
  intros t req. split; [reflexivity|].
  apply (proj1 (patchExtensionRequest_resolution 1704810000000 req t eq_refl)).
  vm_compute. reflexivity.
Defined.

(** ** C10: comment notifications *)

(** C10. Every notification created for a comment is addressed to
    someone other than the commenter: the task creator or the assignee
    when they are not the commenter, or an admin who is none of the
    commenter, the creator and the assignee. *)
Theorem postComment_no_self_notification (now : Z) (req : TaskRoutes.reqUser) (text : string)
    (t : Task.task) (db : users) :
  exists t' ns,
    TaskRoutes.postComment now req text (Some t) db = TaskRoutes.Ok (t', ns) /\
    forall n, In n ns ->
      TaskRoutes.recipient n <> TaskRoutes.req_id req /\
      (TaskRoutes.recipient n = Task.createdBy t \/
       TaskRoutes.recipient n = Task.assignedTo t \/
       (In (TaskRoutes.recipient n) (TaskRoutes.adminIds db) /\
        TaskRoutes.recipient n <> Task.createdBy t /\
        TaskRoutes.recipient n <> Task.assignedTo t)).
Proof.
  do 2 eexists. split; [reflexivity|].
  intros n Hn. unfold TaskRoutes.commentNotifications in Hn. simpl in Hn.
  apply in_app_or in Hn as [Hn|Hn].
  { destruct (Z.eqb_spec (Task.createdBy t) (TaskRoutes.req_id req)); simpl in Hn;
      [contradiction|].
    destruct Hn as [<-|[]]. simpl. auto. }
  apply in_app_or in Hn as [Hn|Hn].
  { destruct (Z.eqb_spec (Task.assignedTo t) (TaskRoutes.req_id req)); simpl in Hn;
      [contradiction|].
    destruct Hn as [<-|[]]. simpl. auto. }
  apply in_flat_map in Hn as (a & Ha & Hn).
  destruct (Z.eqb_spec a (TaskRoutes.req_id req)); simpl in Hn; [contradiction|].
  destruct (Z.eqb_spec a (Task.createdBy t)); simpl in Hn; [contradiction|].
  destruct (Z.eqb_spec a (Task.assignedTo t)); simpl in Hn; [contradiction|].
  destruct Hn as [<-|[]]. simpl. split; [assumption|]. right; right. auto.
Qed.

(** * Further properties of the code *)

(** ** The password hook *)

(** X1. The pre-save hook leaves an unmodified password alone, hashes a
    modified password shorter than 30 characters and stores one of 30 or
    more characters as it is (also a plaintext one); as bcrypt hashes
    have at least 30 characters, saving again never re-hashes. *)
Theorem preSavePassword_behaviour (bcryptHash : string -> string) (p : string) :
  (forall s, (30 <= String.length (bcryptHash s))%nat) ->
  preSavePassword bcryptHash false p = p /\
  ((30 <= String.length p)%nat -> preSavePassword bcryptHash true p = p) /\
  ((String.length p < 30)%nat -> preSavePassword bcryptHash true p = bcryptHash p) /\
  preSavePassword bcryptHash true (preSavePassword bcryptHash true p) =
    preSavePassword bcryptHash true p.
Proof.
  intros Hh. unfold preSavePassword. simpl.
  split; [reflexivity|]. split; [|split].
  - intros H. destruct (Nat.ltb_spec (String.length p) 30); [lia | reflexivity].
  - intros H. destruct (Nat.ltb_spec (String.length p) 30); [reflexivity | lia].
  - destruct (Nat.ltb_spec (String.length p) 30).
    + specialize (Hh p). destruct (Nat.ltb_spec (String.length (bcryptHash p)) 30); [lia|reflexivity].
    + destruct (Nat.ltb_spec (String.length p) 30); [lia|reflexivity].
Qed.

Lemma preSavePassword_behaviour_witness :
  let h := fun _ : string => "$2a$10$N9qo8uLOickgx2ZMRZoMyeIjZAgcfl7p92ldGxad68LJZdL17lhWy" in
  (forall s, (30 <= String.length (h s))%nat) /\
  preSavePassword h true "hunter2" = h "hunter2".
Proof.
  intros h.
  assert (Hh : forall s, (30 <= String.length (h s))%nat) by (intros s; simpl; lia).
  split; [exact Hh|].
  destruct (preSavePassword_behaviour h "hunter2" Hh) as (_ & _ & H & _).
  apply H. simpl. lia.
Defined.

(** ** The streak over several completions *)

(** X2. One [updateStreak] raises a non-negative streak by at most one,
    and leaves it at least 1 when the user had no previous completion or a
    streak of at least 1. *)
Theorem updateStreak_step_bound (now tcd : Z) (u : User.user) :
  0 <= User.currentStreak u ->
  User.currentStreak (User.updateStreak now tcd u) <= User.currentStreak u + 1 /\
  (User.lastTaskCompletion u = None \/ 1 <= User.currentStreak u ->
     1 <= User.currentStreak (User.updateStreak now tcd u)).
Proof.
  intros H. destruct (UserFacts.updateStreak_shape now tcd u) as (_ & _ & Hs & _).
  rewrite Hs. unfold User.streakAfter.
  destruct (User.lastTaskCompletion u) as [l|] eqn:El.
  - destruct (_ =? 1); [split; [lia | intros _; lia]|].
    destruct (_ >? 1); (split; [lia|]); intros [E|E]; [discriminate | lia | discriminate | lia].
  - split; [lia | intros _; lia].
Qed.

Lemma updateStreak_step_bound_witness :
  0 <= User.currentStreak (User.newUser User.Employee) /\
  User.currentStreak (User.updateStreak 0 0 (User.newUser User.Employee)) <= 1.
Proof.
  split; [simpl; lia|].
  exact (proj1 (updateStreak_step_bound 0 0 (User.newUser User.Employee) ltac:(simpl; lia))).
Defined.



(** ** The shape of reachable users *)
Module ShapeFacts.
Import Task.

Lemma updateStreak_award_shape (now p : Z) (r : User.reward_reason) (u : User.user) :
  userShape u -> 0 < p ->
  userShape (User.addRewardPoints now p r (User.updateStreak now now u)).
Proof.
  intros [Hall Hcase] Hp.
  assert (H0 : 0 <= User.currentStreak u) by (destruct Hcase as [(_ & H & _)|(_ & H)]; lia).
  destruct (updateStreak_step_bound now now u H0) as [_ Hge].
  assert (Hs1 : 1 <= User.currentStreak (User.updateStreak now now u)).
  { apply Hge. destruct Hcase as [(H & _)|(_ & H)]; [left|right]; exact H. }
  destruct (UserFacts.updateStreak_shape now now u) as (Hr & _ & Hs & Ht).
  split; [|right; simpl; rewrite Ht; split; [discriminate | exact Hs1]].
  simpl. rewrite Hr. apply Forall_app. split; [apply Forall_app; split; [exact Hall|]|].
  - destruct (Z.rem _ 10 =? 0); constructor; [simpl; split; [reflexivity|]|constructor].
    rewrite Hs in Hs1. lia.
  - constructor; [simpl; split; [reflexivity | exact Hp] | constructor].
Qed.

Lemma completeTask_writes (off now : Z) (t : task) (db : users) :
  snd (TaskModel.completeTask off now t db) = db \/
  exists a u p r, db !! a = Some u /\ 0 < p /\
    snd (TaskModel.completeTask off now t db) =
      <[a := User.addRewardPoints now p r (User.updateStreak now now u)]> db.
Proof.
  unfold TaskModel.completeTask. simpl.
  destruct (now <=? _); simpl; destruct (db !! assignedTo t) as [u|] eqn:Hu; simpl; auto.
  right. exists (assignedTo t), u, 50, (User.OnTimeTaskCompletion (title t)).
  repeat split; auto; lia.
Qed.

Lemma completeTask_tiered_writes (now : Z) (t : task) (db : users) :
  snd (TaskModelTiered.completeTask now t db) = db \/
  exists a u p r, db !! a = Some u /\ 0 < p /\
    snd (TaskModelTiered.completeTask now t db) =
      <[a := User.addRewardPoints now p r (User.updateStreak now now u)]> db.
Proof.
  unfold TaskModelTiered.completeTask. simpl.
  destruct (now <=? _); simpl; destruct (db !! assignedTo t) as [u|] eqn:Hu; simpl; auto.
  right. eexists (assignedTo t), u, _, (User.TaskCompletionReward (title t)).
  repeat split; eauto. destruct (priority t); simpl; lia.
Qed.

Lemma writes_shape (now : Z) (db db' : users) :
  (db' = db \/ exists a u p r, db !! a = Some u /\ 0 < p /\
     db' = <[a := User.addRewardPoints now p r (User.updateStreak now now u)]> db) ->
  map_Forall (fun _ => userShape) db -> map_Forall (fun _ => userShape) db'.
Proof.
  intros [->|(a & u & p & r & Hu & Hp & ->)] Hdb; [exact Hdb|].
  apply map_Forall_insert_2; [|exact Hdb].
  apply updateStreak_award_shape; [exact (map_Forall_lookup_1 _ _ _ _ Hdb Hu) | exact Hp].
Qed.

End ShapeFacts.

(** X4. In every reachable users collection each user either has never
    completed a task on time (streak 0, no last completion, empty log) or
    has a last completion and a streak of at least 1; every log entry is a
    ["points"] entry of positive value (no gifts are ever logged); and the
    next [updateStreak] of a stored user yields a streak of at least 1, so
    a zero-point streak bonus never occurs. *)
Theorem reachable_userShape (db : users) :
  reachable db ->
  map_Forall (fun _ => userShape) db /\
  (forall id u now tcd, db !! id = Some u ->
     1 <= User.currentStreak (User.updateStreak now tcd u)).
Proof.
  intros Hr.
  assert (Hs : map_Forall (fun _ => userShape) db).
  { induction Hr as [| db id r _ IH _ | db off now t _ IH | db now t _ IH].
    - apply map_Forall_empty.
    - apply map_Forall_insert_2; [|exact IH].
      split; [constructor | left; simpl; auto].
    - exact (ShapeFacts.writes_shape _ _ _ (ShapeFacts.completeTask_writes off now t db) IH).
    - exact (ShapeFacts.writes_shape _ _ _ (ShapeFacts.completeTask_tiered_writes now t db) IH). }
  split; [exact Hs|].
  intros id u now tcd Hu. destruct (map_Forall_lookup_1 _ _ _ _ Hs Hu) as [_ Hc].
  assert (H0 : 0 <= User.currentStreak u) by (destruct Hc as [(_ & H & _)|(_ & H)]; lia).
  apply (updateStreak_step_bound now tcd u H0).
  destruct Hc as [(H & _)|(_ & H)]; [left|right]; exact H.
Qed.

Lemma reachable_userShape_witness :
  let t := Task.mkTask 1 "t" 7 2 Task.InProgress Task.High 1704844800000 None false 0
             Task.noExtension [] in
  let db1 : users := <[7 := User.newUser User.Employee]> ∅ in
  let db2 := snd (TaskModel.completeTask 0 1704800000000 t db1) in
  let db3 := snd (TaskModelTiered.completeTask (1704800000000 + Time.DAY_MS)
                    (Task.set_dueDate 1704970000000 t) db2) in
  reachable db3 /\
  exists u, db3 !! 7 = Some u /\ User.lastTaskCompletion u <> None /\
    User.rewards u <> [] /\ userShape u /\
    1 <= User.currentStreak (User.updateStreak 1705000000000 1705000000000 u).
Proof.
  intros t db1 db2 db3.
  assert (H : reachable db3).
  { apply reachable_complete_tiered, reachable_complete, reachable_register;
      [apply reachable_empty | reflexivity]. }
  destruct (reachable_userShape db3 H) as [Hs Hup].
  split; [exact H|].
  destruct (db3 !! 7) as [u|] eqn:E; [|vm_compute in E; discriminate].
  exists u. split; [reflexivity|].
  pose proof E as E'. vm_compute in E'. injection E' as <-.
  split; [discriminate|]. split; [discriminate|].
  split; [exact (map_Forall_lookup_1 _ _ _ _ Hs E)|].
  exact (Hup 7 _ 1705000000000 1705000000000 E).
Defined.

(** ** [completeTask]: the two variants and what a completion touches *)

(** X5. Whatever the host's time zone, a completion the tiered variant
    counts as on time is on time for models/Task.js too (the end of the
    due day is never before the due instant). *)
Theorem completeTask_flat_more_lenient (off now : Z) (t : Task.task) (db db' : users) :
  Task.isCompletedOnTime (fst (TaskModelTiered.completeTask now t db)) = true ->
  Task.isCompletedOnTime (fst (TaskModel.completeTask off now t db')) = true.
Proof.
  rewrite CompleteFacts.completeTask_fst, CompleteFacts.completeTask_tiered_fst. simpl.
  intros H. destruct (Z.leb_spec now (Task.dueDate t)) as [Hle|]; simpl in H.
  - pose proof (setEndOfDay_ge off (Task.dueDate t)).
    destruct (Z.leb_spec now (Time.setEndOfDay off (Task.dueDate t))); [reflexivity | lia].
  - discriminate.
Qed.

Lemma completeTask_flat_more_lenient_witness :
  let t := Task.mkTask 1 "t" 7 2 Task.InProgress Task.High 1704844800000 None false 0
             Task.noExtension [] in
  Task.isCompletedOnTime (fst (TaskModelTiered.completeTask 1704844000000 t ∅)) = true /\
  Task.isCompletedOnTime (fst (TaskModel.completeTask 3600000 1704844000000 t ∅)) = true.
Proof.
  intros t. split; [reflexivity|].
  apply (completeTask_flat_more_lenient 3600000 1704844000000 t ∅ ∅). reflexivity.
Defined.

(** X6. Both variants mark the task completed at [now] and leave its id,
    title, assignee, creator, priority, due date, extension request and
    comments unchanged. *)
Theorem completeTask_task_frame (off now : Z) (t : Task.task) (db : users) :
  forall t', t' = fst (TaskModel.completeTask off now t db) \/
             t' = fst (TaskModelTiered.completeTask now t db) ->
  Task.status t' = Task.Completed /\ Task.completionDate t' = Some now /\
  Task.task_id t' = Task.task_id t /\ Task.title t' = Task.title t /\
  Task.assignedTo t' = Task.assignedTo t /\ Task.createdBy t' = Task.createdBy t /\
  Task.priority t' = Task.priority t /\ Task.dueDate t' = Task.dueDate t /\
  Task.extensionRequest t' = Task.extensionRequest t /\ Task.comments t' = Task.comments t.
Proof.
  intros t' [->| ->];
    [rewrite CompleteFacts.completeTask_fst | rewrite CompleteFacts.completeTask_tiered_fst];
    simpl; [|destruct (now <=? Task.dueDate t)]; repeat split.
Qed.

Lemma completeTask_task_frame_witness :
  let t := Task.mkTask 1 "t" 7 2 Task.InProgress Task.High 1704844800000 None false 0
             Task.noExtension [] in
  let t' := fst (TaskModel.completeTask 0 1704844000000 t ∅) in
  (t' = t' \/ t' = fst (TaskModelTiered.completeTask 1704844000000 t ∅)) /\
  Task.dueDate t' = Task.dueDate t.
Proof.
  intros t t'.
  assert (H : t' = fst (TaskModel.completeTask 0 1704844000000 t ∅) \/
              t' = fst (TaskModelTiered.completeTask 1704844000000 t ∅)) by (left; reflexivity).
  split; [left; reflexivity|].
  destruct (completeTask_task_frame 0 1704844000000 t ∅ t' H) as (_&_&_&_&_&_&_&Hd&_).
  exact Hd.
Defined.

(** X7. A completion (either variant) writes at most the assignee's user
    document: every other user is left as it was. *)
Theorem completeTask_other_users (off now : Z) (t : Task.task) (db : users) (id : Z) :
  id <> Task.assignedTo t ->
  snd (TaskModel.completeTask off now t db) !! id = db !! id /\
  snd (TaskModelTiered.completeTask now t db) !! id = db !! id.
Proof.
  intros Hne. unfold TaskModel.completeTask, TaskModelTiered.completeTask. simpl.
  split; destruct (now <=? _); simpl; destruct (db !! Task.assignedTo t); simpl;
    try reflexivity; apply lookup_insert_ne; congruence.
Qed.

Lemma completeTask_other_users_witness :
  let t := Task.mkTask 1 "t" 7 2 Task.InProgress Task.High 1704844800000 None false 0
             Task.noExtension [] in
  let db : users := <[7 := User.newUser User.Employee]> (<[8 := User.newUser User.Admin]> ∅) in
  8 <> Task.assignedTo t /\
  snd (TaskModel.completeTask 0 1704844000000 t db) !! 8 = Some (User.newUser User.Admin).
Proof.
  intros t db.
  assert (H : 8 <> Task.assignedTo t) by (simpl; lia).
  split; [exact H|].
  rewrite (proj1 (completeTask_other_users 0 1704844000000 t db 8 H)). reflexivity.
Defined.

(** X8. models/Task.js, on-time completion with an existing assignee: the
    assignee's streak becomes [streakAfter], their last completion [now],
    and their log gains, in this order, the streak bonus entry (when the
    new streak is a multiple of 10) and the 50-point completion entry;
    [rewardPoints] grows by exactly the values appended. *)
Theorem completeTask_assignee_effect (off now : Z) (t : Task.task) (db : users) (u : User.user) :
  db !! Task.assignedTo t = Some u ->
  now <= Time.setEndOfDay off (Task.dueDate t) ->
  exists u' bonus,
    snd (TaskModel.completeTask off now t db) !! Task.assignedTo t = Some u' /\
    User.currentStreak u' = User.streakAfter now u /\
    User.lastTaskCompletion u' = Some now /\
    User.rewards u' = User.rewards u ++ bonus ++
      [User.mkReward User.RPoints 50 (User.OnTimeTaskCompletion (Task.title t)) now] /\
    User.rewardPoints u' = User.rewardPoints u + User.sumPoints bonus + 50 /\
    (Z.rem (User.streakAfter now u) 10 = 0 ->
       bonus = [User.mkReward User.RPoints (User.streakAfter now u * 100)
                  (User.StreakReward (User.streakAfter now u)) now]) /\
    (Z.rem (User.streakAfter now u) 10 <> 0 -> bonus = []).
Proof.
  intros Hu Hon. apply Z.leb_le in Hon.
  rewrite (RouteFacts.completeTask_on_time_snd off now t db u Hu Hon).
  destruct (UserFacts.updateStreak_shape now now u) as (Hr & Hp & Hs & Ht).
  set (s := User.streakAfter now u) in *.
  eexists _, (if Z.rem s 10 =? 0
             then [User.mkReward User.RPoints (s * 100) (User.StreakReward s) now] else []).
  split; [apply lookup_insert_eq|]. simpl.
  split; [exact Hs|]. split; [exact Ht|].
  split; [rewrite Hr, app_assoc; reflexivity|].
  split; [rewrite Hp; destruct (Z.rem s 10 =? 0); simpl; lia|].
  destruct (Z.eqb_spec (Z.rem s 10) 0); split; intros; congruence.
Qed.

Lemma completeTask_assignee_effect_witness :
  let t := Task.mkTask 1 "t" 7 2 Task.InProgress Task.High 1704844800000 None false 0
             Task.noExtension [] in
  let u := User.mkUser User.Employee 450 9 (Some (1704844000000 - Time.DAY_MS)) [] in
  let db : users := <[7 := u]> ∅ in
  exists u' bonus,
    snd (TaskModel.completeTask 0 1704844000000 t db) !! Task.assignedTo t = Some u' /\
    bonus = [User.mkReward User.RPoints 1000 (User.StreakReward 10) 1704844000000] /\
    User.rewardPoints u' = 1500.
Proof.
  intros t u db.
  destruct (completeTask_assignee_effect 0 1704844000000 t db u
              eq_refl ltac:(vm_compute; discriminate))
    as (u' & b & H1 & _ & _ & _ & H5 & Hb & _).
  assert (Hs : User.streakAfter 1704844000000 u = 10) by reflexivity.
  rewrite Hs in Hb. specialize (Hb eq_refl).
  exists u', b. split; [exact H1|]. split; [exact Hb|].
  rewrite H5, Hb. reflexivity.
Defined.

(** ** The status route *)

(** X9. The status route answers 400 when the status is missing, empty or
    not one of the four values (before looking at the task), 404 when the
    task does not exist, and 403 when the requester is neither the
    assignee nor an admin; none of these changes anything. *)
Theorem patchStatus_errors (off now : Z) (req : TaskRoutes.reqUser) (found : option Task.task)
    (db : users) (s : string) (t : Task.task) :
  TaskRoutes.patchStatus off now req None found db = TaskRoutes.Err 400 /\
  (TaskRoutes.parseStatus s = None ->
     TaskRoutes.patchStatus off now req (Some s) found db = TaskRoutes.Err 400) /\
  (TaskRoutes.parseStatus s <> None ->
     TaskRoutes.patchStatus off now req (Some s) None db = TaskRoutes.Err 404) /\
  (TaskRoutes.parseStatus s <> None -> Task.assignedTo t <> TaskRoutes.req_id req ->
     TaskRoutes.req_role req <> User.Admin ->
     TaskRoutes.patchStatus off now req (Some s) (Some t) db = TaskRoutes.Err 403).
Proof.
  split; [reflexivity|].
  destruct s as [|a s']; [split; [reflexivity|]; split; intros H; contradiction H; reflexivity|].
  unfold TaskRoutes.patchStatus.
  split; [intros H; rewrite H; reflexivity|].
  split; intros H; destruct (TaskRoutes.parseStatus (String a s')) as [st|]; try (contradiction H; reflexivity);
    [reflexivity|].
  intros Ha Hr.
  destruct (Z.eqb_spec (Task.assignedTo t) (TaskRoutes.req_id req)); [contradiction|].
  destruct (TaskRoutes.req_role req); [contradiction Hr; reflexivity| | | |]; reflexivity.
Qed.

Lemma patchStatus_errors_witness :
  let t := Task.mkTask 1 "t" 7 2 Task.InProgress Task.High 1704844800000 None false 0
             Task.noExtension [] in
  let req := TaskRoutes.mkReqUser 9 User.Employee in
  TaskRoutes.parseStatus "done" = None /\
  TaskRoutes.patchStatus 0 0 req (Some "done") (Some t) ∅ = TaskRoutes.Err 400 /\
  TaskRoutes.patchStatus 0 0 req (Some "completed") (Some t) ∅ = TaskRoutes.Err 403.
Proof.
  intros t req.
  destruct (patchStatus_errors 0 0 req (Some t) ∅ "done" t) as (_ & H2 & _).
  destruct (patchStatus_errors 0 0 req (Some t) ∅ "completed" t) as (_ & _ & _ & H4).
  split; [reflexivity|]. split; [apply H2; reflexivity|].
  apply H4; [discriminate | simpl; lia | discriminate].
Defined.



(** ** Extension requests *)

(** X11. Submitting an extension request: 403 unless the requester is the
    assignee; 400 when the reason is missing or empty, the date is missing,
    or the date is not after the current due date; otherwise the request
    is replaced by a fresh pending one carrying the requester, the time
    and the proposed date (approval fields cleared), the due date is kept,
    and the task creator is notified. *)
Theorem postExtensionRequest_behaviour (now : Z) (req : TaskRoutes.reqUser)
    (reason : option string) (d : option Z) (t : Task.task) :
  (Task.assignedTo t <> TaskRoutes.req_id req ->
     MoreRoutes.postExtensionRequest now req reason d (Some t) = TaskRoutes.Err 403) /\
  (Task.assignedTo t = TaskRoutes.req_id req ->
     reason = None \/ reason = Some EmptyString \/ d = None ->
     MoreRoutes.postExtensionRequest now req reason d (Some t) = TaskRoutes.Err 400) /\
  (Task.assignedTo t = TaskRoutes.req_id req -> forall p, d = Some p -> p <= Task.dueDate t ->
     MoreRoutes.postExtensionRequest now req reason d (Some t) = TaskRoutes.Err 400) /\
  (Task.assignedTo t = TaskRoutes.req_id req -> forall r p,
     reason = Some r -> r <> EmptyString -> d = Some p -> Task.dueDate t < p ->
     exists t' n, MoreRoutes.postExtensionRequest now req reason d (Some t) = TaskRoutes.Ok (t', n) /\
       Task.dueDate t' = Task.dueDate t /\
       Task.extensionRequest t' =
         Task.mkExt true Task.ExtPending (Some (TaskRoutes.req_id req)) (Some now) (Some p) None None /\
       TaskRoutes.recipient n = Task.createdBy t).
Proof.
  unfold MoreRoutes.postExtensionRequest.
  split; [|split; [|split]].
  - intros H. destruct (Z.eqb_spec (Task.assignedTo t) (TaskRoutes.req_id req)); [contradiction|reflexivity].
  - intros H Hc. rewrite H, Z.eqb_refl. simpl.
    destruct Hc as [->|[->| ->]]; [reflexivity | |destruct reason; reflexivity].
    destruct d; reflexivity.
  - intros H p -> Hp. rewrite H, Z.eqb_refl. simpl.
    destruct reason as [r|]; [|reflexivity].
    destruct (String.eqb r EmptyString); [reflexivity|].
    destruct (Z.leb_spec p (Task.dueDate t)); [reflexivity|lia].
  - intros H r p -> Hr -> Hp. rewrite H, Z.eqb_refl. simpl.
    destruct (String.eqb_spec r EmptyString); [contradiction|].
    destruct (Z.leb_spec p (Task.dueDate t)); [lia|].
    do 2 eexists. split; [reflexivity|]. repeat split.
Qed.

Lemma postExtensionRequest_behaviour_witness :
  let t := Task.mkTask 1 "t" 7 2 Task.InProgress Task.High 1704844800000 None false 0
             Task.noExtension [] in
  let other := TaskRoutes.mkReqUser 8 User.Employee in
  let req := TaskRoutes.mkReqUser 7 User.Employee in
  MoreRoutes.postExtensionRequest 0 other (Some "sick") (Some 1705017600000) (Some t) =
    TaskRoutes.Err 403 /\
  exists t' n,
    MoreRoutes.postExtensionRequest 5 req (Some "sick") (Some 1705017600000) (Some t) =
      TaskRoutes.Ok (t', n) /\
    Task.dueDate t' = 1704844800000 /\
    Task.extensionRequest t' =
      Task.mkExt true Task.ExtPending (Some 7) (Some 5) (Some 1705017600000) None None /\
    TaskRoutes.recipient n = 2.
Proof.
  intros t other req. split.
  - exact (proj1 (postExtensionRequest_behaviour 0 other (Some "sick") (Some 1705017600000) t)
                 ltac:(simpl; lia)).
  - destruct (postExtensionRequest_behaviour 5 req (Some "sick") (Some 1705017600000) t)
      as (_ & _ & _ & Hok).
    exact (Hok eq_refl "sick" 1705017600000 eq_refl ltac:(discriminate) eq_refl
               ltac:(vm_compute; reflexivity)).
Defined.

(** X12. After a successful extension request, an admin approving it with
    the stored proposed date always succeeds and moves the due date to
    that date. *)
Theorem extension_request_then_approve (now now' : Z) (req admin : TaskRoutes.reqUser)
    (r : string) (p : Z) (t t1 : Task.task) (n : TaskRoutes.notification) :
  MoreRoutes.postExtensionRequest now req (Some r) (Some p) (Some t) = TaskRoutes.Ok (t1, n) ->
  exists t2,
    TaskRoutes.patchExtensionRequest now' admin (Some "approved")
      (Task.newDueDate (Task.extensionRequest t1)) (Some t1) = TaskRoutes.Ok t2 /\
    Task.dueDate t2 = p /\
    Task.ext_status_ (Task.extensionRequest t2) = Task.ExtApproved /\
    Task.requestedBy (Task.extensionRequest t2) = Some (TaskRoutes.req_id req).
Proof.
  unfold MoreRoutes.postExtensionRequest.
  destruct (Z.eqb (Task.assignedTo t) (TaskRoutes.req_id req)); simpl; [|discriminate].
  destruct (String.eqb r EmptyString); [discriminate|].
  destruct (Z.leb_spec p (Task.dueDate t)) as [Hle|Hlt]; [discriminate|].
  intros Hok. injection Hok as <- _.
  unfold TaskRoutes.patchExtensionRequest. simpl.
  destruct (Z.leb_spec p (Task.dueDate t)); [lia|].
  eexists. split; [reflexivity|]. repeat split.
Qed.

Lemma extension_request_then_approve_witness :
  let t := Task.mkTask 1 "t" 7 2 Task.InProgress Task.High 1704844800000 None false 0
             Task.noExtension [] in
  let req := TaskRoutes.mkReqUser 7 User.Employee in
  exists t1 n, MoreRoutes.postExtensionRequest 0 req (Some "sick") (Some 1705017600000) (Some t) =
                 TaskRoutes.Ok (t1, n) /\
    exists t2, TaskRoutes.patchExtensionRequest 1 (TaskRoutes.mkReqUser 2 User.Admin)
                 (Some "approved") (Task.newDueDate (Task.extensionRequest t1)) (Some t1) =
                 TaskRoutes.Ok t2 /\ Task.dueDate t2 = 1705017600000.
Proof.
  intros t req.
  destruct (MoreRoutes.postExtensionRequest 0 req (Some "sick") (Some 1705017600000) (Some t))
    as [[t1 n]|c] eqn:E; [|vm_compute in E; discriminate].
  exists t1, n. split; [reflexivity|].
  destruct (extension_request_then_approve 0 1 req (TaskRoutes.mkReqUser 2 User.Admin)
              "sick" 1705017600000 t t1 n E) as (t2 & H1 & H2 & _).
  exists t2. split; [exact H1 | exact H2].
Defined.

(** X13. Resolving a request does not close it ([requested] stays true),
    so an approved request can be resolved again either way: a second
    approval with a date after the extended due date is accepted and
    moves the due date again, and a later rejection is accepted, marks
    it rejected and leaves the extended due date in place. *)
Theorem extension_resolution_repeatable (now now' : Z) (admin admin' : TaskRoutes.reqUser)
    (d : option Z) (t t2 : Task.task) :
  TaskRoutes.patchExtensionRequest now admin (Some "approved") d (Some t) = TaskRoutes.Ok t2 ->
  Task.requested (Task.extensionRequest t2) = true /\
  (forall p, Task.dueDate t2 < p ->
     exists t3,
       TaskRoutes.patchExtensionRequest now' admin' (Some "approved") (Some p) (Some t2) =
         TaskRoutes.Ok t3 /\
       Task.ext_status_ (Task.extensionRequest t3) = Task.ExtApproved /\
       Task.dueDate t3 = p) /\
  exists t3,
    TaskRoutes.patchExtensionRequest now' admin' (Some "rejected") None (Some t2) = TaskRoutes.Ok t3 /\
    Task.ext_status_ (Task.extensionRequest t3) = Task.ExtRejected /\
    Task.dueDate t3 = Task.dueDate t2 /\
    Task.dueDate t < Task.dueDate t2.
Proof.
  unfold TaskRoutes.patchExtensionRequest. cbn.
  destruct (Task.extensionRequest t) as [rq st rb ra nd ab aa].
  destruct rq; cbn; [|discriminate].
  destruct d as [p|]; [|discriminate].
  destruct (Z.leb_spec p (Task.dueDate t)) as [Hle|Hlt]; [discriminate|].
  intros Hok. injection Hok as <-. cbn.
  split; [reflexivity|]. split.
  - intros q Hq. destruct (Z.leb_spec q p) as [Hqp|Hqp]; [lia|].
    eexists. split; [reflexivity|]. cbn. split; reflexivity.
  - eexists. split; [reflexivity|]. cbn. repeat split. lia.
Qed.

Lemma extension_resolution_repeatable_witness :
  let t := Task.mkTask 1 "t" 7 2 Task.InProgress Task.High 1704844800000 None false 0
             (Task.mkExt true Task.ExtPending (Some 7) (Some 0) (Some 1705017600000) None None) [] in
  let admin := TaskRoutes.mkReqUser 2 User.Admin in
  exists t2 t3,
    TaskRoutes.patchExtensionRequest 1 admin (Some "approved") (Some 1705017600000) (Some t) =
      TaskRoutes.Ok t2 /\
    TaskRoutes.patchExtensionRequest 2 admin (Some "approved") (Some 1705104000000) (Some t2) =
      TaskRoutes.Ok t3 /\
    Task.dueDate t3 = 1705104000000.
Proof.
  intros t admin.
  destruct (TaskRoutes.patchExtensionRequest 1 admin (Some "approved") (Some 1705017600000) (Some t))
    as [t2|c] eqn:E; [|vm_compute in E; discriminate].
  destruct (extension_resolution_repeatable 1 2 admin admin (Some 1705017600000) t t2 E)
    as (_ & Happ & _).
  assert (Hlt : Task.dueDate t2 < 1705104000000) by (vm_compute in E; injection E as <-; reflexivity).
  destruct (Happ 1705104000000 Hlt) as (t3 & H3 & _ & Hd).
  exists t2, t3. split; [reflexivity|]. split; [exact H3 | exact Hd].
Defined.

(** ** Leaderboard *)

Module LeaderboardFacts.
Import TaskRoutes MoreRoutes.

#[export] Instance byPointsDesc_trans : Transitive byPointsDesc.
Proof. intros a b c. unfold byPointsDesc. lia. Qed.

#[export] Instance byPointsDesc_total : Total byPointsDesc.
Proof. intros a b. unfold byPointsDesc. lia. Qed.

Lemma filter_sublist {A} (f : A -> bool) (l : list A) : List.filter f l `sublist_of` l.
Proof.
  induction l as [|x l IH]; simpl; [constructor|].
  destruct (f x); [apply sublist_skip|apply sublist_cons]; exact IH.
Qed.

Lemma elem_of_take_1 {A} (n : nat) (l : list A) x : x ∈ take n l -> x ∈ l.
Proof. intros H. rewrite <-(take_drop n l). apply elem_of_app. left. exact H. Qed.

Lemma elem_of_candidates db id u :
  (id, u) ∈ candidates db <-> db !! id = Some u /\ isAdminRole (User.role u) = false.
Proof.
  unfold candidates. rewrite list_elem_of_In, filter_In, <-list_elem_of_In,
    elem_of_map_to_list. simpl. rewrite negb_true_iff. reflexivity.
Qed.

Lemma sorted_candidates db : StronglySorted byPointsDesc (merge_sort byPointsDesc (candidates db)).
Proof. apply StronglySorted_merge_sort; apply _. Qed.

Lemma leaderboard_unfold db : leaderboard db = take 10 (merge_sort byPointsDesc (candidates db)).
Proof. reflexivity. Qed.

End LeaderboardFacts.

(** X14. The leaderboard lists at most ten users, each one an existing
    non-admin user with its stored record, no user twice, in order of
    non-increasing reward points. *)
Theorem leaderboard_shape (db : users) :
  (length (MoreRoutes.leaderboard db) <= 10)%nat /\
  (forall id u, (id, u) ∈ MoreRoutes.leaderboard db ->
     db !! id = Some u /\ TaskRoutes.isAdminRole (User.role u) = false) /\
  NoDup ((MoreRoutes.leaderboard db).*1) /\
  StronglySorted MoreRoutes.byPointsDesc (MoreRoutes.leaderboard db).
Proof.
  rewrite LeaderboardFacts.leaderboard_unfold.
  split; [|split; [|split]].
  - rewrite length_take. lia.
  - intros id u Hin. apply LeaderboardFacts.elem_of_take_1 in Hin.
    rewrite (merge_sort_Permutation _ _) in Hin.
    apply LeaderboardFacts.elem_of_candidates. exact Hin.
  - eapply sublist_NoDup; [|apply fmap_sublist, sublist_take].
    rewrite (merge_sort_Permutation _ _).
    apply (sublist_NoDup _ ((map_to_list db).*1)); [apply NoDup_fst_map_to_list|].
    apply fmap_sublist, LeaderboardFacts.filter_sublist.
  - pose proof (LeaderboardFacts.sorted_candidates db) as Hs.
    rewrite <-(take_drop 10 (merge_sort _ _)) in Hs.
    exact (StronglySorted_app_1_l _ _ _ Hs).
Qed.

(** X15. The leaderboard is the top ten: a non-admin user left out of it
    means the list is full and every listed user has at least as many
    reward points as the one left out. *)
Theorem leaderboard_top10 (db : users) (id : Z) (u : User.user) :
  db !! id = Some u -> TaskRoutes.isAdminRole (User.role u) = false ->
  (id, u) ∉ MoreRoutes.leaderboard db ->
  length (MoreRoutes.leaderboard db) = 10%nat /\
  forall e, e ∈ MoreRoutes.leaderboard db -> User.rewardPoints u <= User.rewardPoints e.2.
Proof.
  intros Hdb Hrole Hout. rewrite LeaderboardFacts.leaderboard_unfold in *.
  set (L := merge_sort MoreRoutes.byPointsDesc (MoreRoutes.candidates db)) in *.
  assert (HL : (id, u) ∈ L).
  { unfold L. rewrite (merge_sort_Permutation _ _).
    apply LeaderboardFacts.elem_of_candidates. split; assumption. }
  rewrite <-(take_drop 10 L) in HL.
  apply elem_of_app in HL as [HL|HL]; [contradiction|].
  split.
  - rewrite length_take.
    assert (length (drop 10 L) <> 0%nat) by (intros Hn; apply length_zero_iff_nil in Hn;
      rewrite Hn in HL; apply not_elem_of_nil in HL; exact HL).
    rewrite length_drop in *. lia.
  - intros e He.
    pose proof (LeaderboardFacts.sorted_candidates db) as Hs. fold L in Hs.
    rewrite <-(take_drop 10 L) in Hs.
    exact (StronglySorted_app_1_elem_of _ _ _ _ _ Hs He HL).
Qed.

Lemma leaderboard_top10_witness :
  let u := fun p => User.mkUser User.Employee p 0 None [] in
  let db : users := list_to_map (zip (seqZ 1 11) (map u [5;9;1;7;3;8;2;6;4;10;0])) in
  db !! 11 = Some (u 0) /\ TaskRoutes.isAdminRole (User.role (u 0)) = false /\
  ((11, u 0) ∉ MoreRoutes.leaderboard db) /\
  length (MoreRoutes.leaderboard db) = 10%nat.
Proof.
  intros u db.
  assert (H1 : db !! 11 = Some (u 0)) by reflexivity.
  assert (H2 : TaskRoutes.isAdminRole (User.role (u 0)) = false) by reflexivity.
  assert (H3 : (11, u 0) ∉ MoreRoutes.leaderboard db) 
    by (intros H; apply list_elem_of_In in H; vm_compute in H;
        repeat (destruct H as [H|H]; [discriminate H|]); exact H).
  split; [exact H1|]. split; [exact H2|]. split; [exact H3|].
  exact (proj1 (leaderboard_top10 db 11 (u 0) H1 H2 H3)).
Defined.

(** ** Task creation *)



(** ** Comment notifications *)

Module CommentFacts.
Import Task TaskRoutes MoreRoutes.

Lemma fmap_map {A B} (f : A -> B) (l : list A) : f <$> l = List.map f l.
Proof. induction l as [|x l IH]; simpl; [reflexivity|]. rewrite <-IH. reflexivity. Qed.

Lemma NoDup_map_fst_filter {A B} (p : A * B -> bool) (l : list (A * B)) :
  List.NoDup (List.map fst l) -> List.NoDup (List.map fst (List.filter p l)).
Proof.
  induction l as [|x l IH]; simpl; [auto|].
  intros Hnd. inversion Hnd as [|? ? Hx Hl]; subst.
  destruct (p x); simpl; [|auto].
  constructor; [|auto].
  intros Hin. apply Hx. apply in_map_iff in Hin as (y & Hy & Hin).
  apply filter_In in Hin as [Hin _]. apply in_map_iff. eauto.
Qed.

Lemma adminIds_NoDup db : List.NoDup (adminIds db).
Proof.
  unfold adminIds. apply NoDup_map_fst_filter.
  rewrite <-fmap_map, <-NoDup_ListNoDup. apply NoDup_fst_map_to_list.
Qed.

Lemma in_adminIds db a ua :
  db !! a = Some ua -> User.role ua = User.Admin -> In a (adminIds db).
Proof.
  intros Hdb Hr. unfold adminIds. apply in_map_iff. exists (a, ua). split; [reflexivity|].
  apply filter_In. split; [|simpl; rewrite Hr; reflexivity].
  apply list_elem_of_In, elem_of_map_to_list. exact Hdb.
Qed.

Lemma commentNotifications_split me t admins :
  commentNotifications me t admins =
  (if negb (createdBy t =? me) then [mkNotification (createdBy t) (task_id t) NComment me] else []) ++
  (if negb (assignedTo t =? me) then [mkNotification (assignedTo t) (task_id t) NComment me] else []) ++
  adminPart me t admins.
Proof. reflexivity. Qed.

Lemma countFor_app r l1 l2 : countFor r (l1 ++ l2) = (countFor r l1 + countFor r l2)%nat.
Proof. unfold countFor. rewrite List.filter_app, length_app. reflexivity. Qed.

Lemma adminPart_cons me t x l :
  adminPart me t (x :: l) =
  (if negb (x =? me) && negb (x =? createdBy t) && negb (x =? assignedTo t)
   then [mkNotification x (task_id t) NComment me] else []) ++ adminPart me t l.
Proof. reflexivity. Qed.

Lemma adminPart_absent me t r l :
  (~ In r l \/ r = me \/ r = createdBy t \/ r = assignedTo t) ->
  countFor r (adminPart me t l) = 0%nat.
Proof.
  induction l as [|x l IH]; intros Hr; [reflexivity|].
  rewrite adminPart_cons, countFor_app, IH.
  2:{ destruct Hr as [Hr|Hr]; [left; intros Hin; apply Hr; right; exact Hin|right; exact Hr]. }
  destruct (Z.eqb_spec x r) as [->|Hne].
  - destruct Hr as [Hr|[->|[->| ->]]].
    + exfalso. apply Hr. left. reflexivity.
    + rewrite Z.eqb_refl. reflexivity.
    + rewrite Z.eqb_refl, andb_false_r. reflexivity.
    + rewrite Z.eqb_refl, andb_false_r. reflexivity.
  - destruct (_ && _); simpl; [|reflexivity].
    unfold countFor. simpl. destruct (Z.eqb_spec x r); [contradiction|reflexivity].
Qed.

Lemma adminPart_once me t a l :
  List.NoDup l -> In a l -> a <> me -> a <> createdBy t -> a <> assignedTo t ->
  countFor a (adminPart me t l) = 1%nat.
Proof.
  induction l as [|x l IH]; intros Hnd Hin H1 H2 H3; [destruct Hin|].
  inversion Hnd as [|? ? Hx Hl]; subst.
  rewrite adminPart_cons, countFor_app.
  destruct Hin as [<-|Hin].
  - rewrite adminPart_absent by (left; exact Hx).
    apply Z.eqb_neq in H1, H2, H3. rewrite H1, H2, H3. simpl.
    unfold countFor. simpl. rewrite Z.eqb_refl. reflexivity.
  - rewrite IH by assumption.
    destruct (_ && _); [|reflexivity].
    unfold countFor. simpl. destruct (Z.eqb_spec x a) as [->|]; [contradiction|reflexivity].
Qed.

End CommentFacts.

(** X17. Posting a comment appends it, with the commenter and the time, at
    the end of the task's comments. When the task's creator is also its
    assignee and is not the commenter, that user receives two comment
    notifications; an admin who is neither the commenter, the creator nor
    the assignee receives exactly one. *)
Theorem postComment_notification_counts (now : Z) (req : TaskRoutes.reqUser) (text : string)
    (t t1 : Task.task) (db : users) (ns : list TaskRoutes.notification) :
  TaskRoutes.postComment now req text (Some t) db = TaskRoutes.Ok (t1, ns) ->
  Task.comments t1 = Task.comments t ++ [Task.mkComment text (TaskRoutes.req_id req) now] /\
  (Task.createdBy t = Task.assignedTo t -> Task.assignedTo t <> TaskRoutes.req_id req ->
     MoreRoutes.countFor (Task.assignedTo t) ns = 2%nat) /\
  (forall a ua, db !! a = Some ua -> User.role ua = User.Admin ->
     a <> TaskRoutes.req_id req -> a <> Task.createdBy t -> a <> Task.assignedTo t ->
     MoreRoutes.countFor a ns = 1%nat).
Proof.
  unfold TaskRoutes.postComment. intros H. injection H as <- <-.
  split; [reflexivity|]. split.
  - intros Hca Hme. rewrite CommentFacts.commentNotifications_split.
    cbn [Task.set_comments Task.createdBy Task.assignedTo Task.task_id].
    rewrite !CommentFacts.countFor_app, CommentFacts.adminPart_absent
      by (right; right; right; reflexivity).
    rewrite Hca. apply Z.eqb_neq in Hme. rewrite Hme. simpl.
    unfold MoreRoutes.countFor. simpl. rewrite Z.eqb_refl. reflexivity.
  - intros a ua Hdb Hr H1 H2 H3. rewrite CommentFacts.commentNotifications_split.
    cbn [Task.set_comments Task.createdBy Task.assignedTo Task.task_id].
    rewrite !CommentFacts.countFor_app.
    rewrite (CommentFacts.adminPart_once _ _ a);
      [| apply CommentFacts.adminIds_NoDup | eapply CommentFacts.in_adminIds; eassumption
       | assumption | assumption | assumption].
    destruct (negb _); destruct (negb _); unfold MoreRoutes.countFor; simpl;
      repeat match goal with |- context [?x =? a] => destruct (Z.eqb_spec x a) end;
      subst; try contradiction; reflexivity.
Qed.

Lemma postComment_notification_counts_witness :
  let t := Task.mkTask 1 "t" 7 7 Task.InProgress Task.High 1704844800000 None false 0
             Task.noExtension [] in
  let db : users := <[2 := User.newUser User.Admin]> (<[7 := User.newUser User.Employee]> ∅) in
  let req := TaskRoutes.mkReqUser 5 User.Designer in
  exists t1 ns, TaskRoutes.postComment 0 req "hi" (Some t) db = TaskRoutes.Ok (t1, ns) /\
    MoreRoutes.countFor 7 ns = 2%nat /\ MoreRoutes.countFor 2 ns = 1%nat.
Proof.
  intros t db req.
  destruct (TaskRoutes.postComment 0 req "hi" (Some t) db) as [[t1 ns]|c] eqn:E;
    [|vm_compute in E; discriminate].
  exists t1, ns. split; [reflexivity|].
  destruct (postComment_notification_counts 0 req "hi" t t1 db ns E) as (_ & Ha & Hb).
  split.
  - apply Ha; simpl; [reflexivity|lia].
  - apply (Hb 2 (User.newUser User.Admin)); simpl; [reflexivity|reflexivity|lia|lia|lia].
Defined.

(** ** Resolving and viewing extension requests *)



(** X19. Viewing an extension request is allowed exactly to the assignee,
    the creator and admins, and shows the stored request. Right after a
    successful submission the requester sees it pending with the proposed
    date, and so do the creator and any admin. *)
Theorem getExtensionRequest_access (req : TaskRoutes.reqUser) (t : Task.task) :
  (MoreRoutes.getExtensionRequest req (Some t) = TaskRoutes.Ok (Task.extensionRequest t) <->
   Task.assignedTo t = TaskRoutes.req_id req \/ Task.createdBy t = TaskRoutes.req_id req \/
   TaskRoutes.req_role req = User.Admin) /\
  (MoreRoutes.getExtensionRequest req (Some t) = TaskRoutes.Err 403 \/
   MoreRoutes.getExtensionRequest req (Some t) = TaskRoutes.Ok (Task.extensionRequest t)) /\
  (forall now req' r p t1 n, MoreRoutes.postExtensionRequest now req' r p (Some t) = TaskRoutes.Ok (t1, n) ->
     (TaskRoutes.req_id req = TaskRoutes.req_id req' \/ Task.createdBy t = TaskRoutes.req_id req \/
      TaskRoutes.req_role req = User.Admin) ->
     exists pd, p = Some pd /\
       MoreRoutes.getExtensionRequest req (Some t1) =
         TaskRoutes.Ok (Task.mkExt true Task.ExtPending (Some (TaskRoutes.req_id req')) (Some now)
                          (Some pd) None None)).
Proof.
  unfold MoreRoutes.getExtensionRequest.
  assert (Hiff : negb (Task.assignedTo t =? TaskRoutes.req_id req) &&
                 negb (Task.createdBy t =? TaskRoutes.req_id req) &&
                 negb (TaskRoutes.isAdminRole (TaskRoutes.req_role req)) = false <->
                 Task.assignedTo t = TaskRoutes.req_id req \/ Task.createdBy t = TaskRoutes.req_id req \/
                 TaskRoutes.req_role req = User.Admin).
  { destruct (Z.eqb_spec (Task.assignedTo t) (TaskRoutes.req_id req));
    destruct (Z.eqb_spec (Task.createdBy t) (TaskRoutes.req_id req));
    destruct (TaskRoutes.req_role req); simpl; intuition congruence. }
  split; [|split].
  - rewrite <-Hiff. destruct (_ && _ && _); split; intros H; congruence.
  - destruct (_ && _ && _); [left|right]; reflexivity.
  - intros now req' r p t1 n Hpost Hwho.
    unfold MoreRoutes.postExtensionRequest in Hpost.
    destruct (Z.eqb_spec (Task.assignedTo t) (TaskRoutes.req_id req')) as [Ha|]; simpl in Hpost;
      [|discriminate].
    destruct r as [r|]; [|discriminate]. destruct p as [pd|]; [|discriminate].
    destruct (String.eqb r EmptyString); [discriminate|].
    destruct (pd <=? Task.dueDate t); [discriminate|].
    injection Hpost as <- _. exists pd. split; [reflexivity|]. cbn.
    assert (Hok : Task.assignedTo t = TaskRoutes.req_id req \/ Task.createdBy t = TaskRoutes.req_id req \/
                  TaskRoutes.req_role req = User.Admin) by (destruct Hwho as [Hw|Hw]; [left; congruence|right; exact Hw]).
    apply Hiff in Hok. rewrite Hok. reflexivity.
Qed.

Lemma getExtensionRequest_access_witness :
  let t := Task.mkTask 1 "t" 7 2 Task.InProgress Task.High 1704844800000 None false 0
             Task.noExtension [] in
  let req := TaskRoutes.mkReqUser 7 User.Employee in
  exists t1 n, MoreRoutes.postExtensionRequest 0 req (Some "sick") (Some 1705017600000) (Some t) =
                 TaskRoutes.Ok (t1, n) /\
    MoreRoutes.getExtensionRequest (TaskRoutes.mkReqUser 2 User.Designer) (Some t1) =
      TaskRoutes.Ok (Task.mkExt true Task.ExtPending (Some 7) (Some 0) (Some 1705017600000) None None).
Proof.
  intros t req.
  destruct (MoreRoutes.postExtensionRequest 0 req (Some "sick") (Some 1705017600000) (Some t))
    as [[t1 n]|c] eqn:E; [|vm_compute in E; discriminate].
  exists t1, n. split; [reflexivity|].
  destruct (proj2 (proj2 (getExtensionRequest_access (TaskRoutes.mkReqUser 2 User.Designer) t))
              0 req (Some "sick") (Some 1705017600000) t1 n E (or_intror (or_introl eq_refl)))
    as (pd & Hpd & Hget).
  injection Hpd as <-. exact Hget.
Defined.

(** X20. [getDashboardRoute] sends different roles to different routes:
    no two roles share a dashboard, and only employees land on [/tasks]. *)
Theorem getDashboardRoute_injective (r1 r2 : User.userRole) :
  getDashboardRoute r1 = getDashboardRoute r2 -> r1 = r2.
Proof. destruct r1, r2; simpl; congruence. Qed.

Lemma getDashboardRoute_injective_witness :
  getDashboardRoute User.Designer = getDashboardRoute User.Designer /\ User.Designer = User.Designer.
Proof. split; [reflexivity|]. apply getDashboardRoute_injective. reflexivity. Defined.
